(** * tecgonic: the compile orchestration, the error classifier and the
      bundle extractor, embedded from the Go sources

    The Go code is sequential effectful code over the host file system,
    the HTTP client and the wazero sandbox.  It is embedded as functions
    in a small state-and-trace monad: the state is the host file system,
    the trace records every call that leaves the package (os, net/http,
    archive/tar, wazero).  Values whose behaviour is decided outside the
    package (the sandboxed engine, the HTTP server, the gzip decoder, the
    faults of a file that is being written) are data of the model: records
    of functions, or variables of a section. *)

From Stdlib Require Import ZArith Lia Ascii String DecimalString.
From Stdlib.Strings Require Import Byte.
From stdpp Require Import gmap strings list fin_maps sorting.

Local Open Scope string_scope.
Local Open Scope Z_scope.
Local Open Scope list_scope.

Set Warnings "-register-all".

(** ** Errors *)

(** Go [error] values.  [ErrExternal] stands for the errors of the os,
    net/http, archive/tar, compress/gzip and wazero packages; [Errorf] for
    the values built by [fmt.Errorf] (the wrapped error of a [%w] verb is
    kept); [ErrCompile] for a [*CompileError]. *)
Inductive error : Type :=
| ErrExternal (msg : string)
| Errorf (msg : string) (wrapped : option error)
| ErrCompile (ce : CompileError)
with CompileError : Type :=
| mkCompileError (ExitCode : Z) (Logs : string) (WasmErr : option error).

Definition ExitCode (e : CompileError) : Z :=
  match e with mkCompileError c _ _ => c end.
Definition Logs (e : CompileError) : string :=
  match e with mkCompileError _ l _ => l end.
Definition WasmErr (e : CompileError) : option error :=
  match e with mkCompileError _ _ w => w end.

(** The newline character. *)
Definition nl : string := String (Ascii.ascii_of_nat 10) "".

(** [%d] of an integer. *)
Definition itoa (z : Z) : string := NilZero.string_of_int (Z.to_int z).

(** [int32(x)] of a [uint64] value: the low 32 bits, read as signed. *)
Definition to_int32 (x : Z) : Z :=
  let m := x mod 2 ^ 32 in
  if m <? 2 ^ 31 then m else m - 2 ^ 32.

(** [Error()]: the message of an error.  The [CompileError] case is
    errors.go's method. *)
Fixpoint Error (e : error) : string :=
  match e with
  | ErrExternal msg => msg
  | Errorf msg _ => msg
  | ErrCompile ce => CompileError_Error ce
  end
with CompileError_Error (e : CompileError) : string :=
  match e with
  | mkCompileError code logs werr =>
      let kind :=
        if code =? 1 then "TeX compilation error"
        else if code =? 2 then "WASM engine panic/trap"
        else "exit code " +:+ itoa code in
      let msg := kind in
      let msg :=
        match werr with
        | Some w => msg +:+ ": " +:+ Error w
        | None => msg
        end in
      let msg :=
        if decide (logs = "") then msg
        else msg +:+ nl +:+ "--- tectonic output ---" +:+ nl +:+ logs in
      msg
  end.

(** errors.go: [IsTexError], [IsPanic], [Unwrap]. *)
Definition IsTexError (e : CompileError) : bool := ExitCode e =? 1.
Definition IsPanic (e : CompileError) : bool := ExitCode e =? 2.
Definition Unwrap (e : CompileError) : option error := WasmErr e.

(** A Go result: a value or an error. *)
Inductive result (A : Type) : Type :=
| Ok (a : A)
| Err (e : error).
Arguments Ok {A} a.
Arguments Err {A} e.

(** ** Paths (path/filepath, Unix) *)

Module filepath.

Definition slash : ascii := "/"%char.

(** The elements of a path between slashes. *)
Fixpoint split_acc (cur : string) (s : string) : list string :=
  match s with
  | EmptyString => [String.rev cur]
  | String c s' =>
      if Ascii.eqb c slash then String.rev cur :: split_acc "" s'
      else split_acc (String c cur) s'
  end.
Definition split (s : string) : list string := split_acc "" s.

Definition rooted (s : string) : bool :=
  match s with
  | String c _ => Ascii.eqb c slash
  | EmptyString => false
  end.

(** One pass of [Clean] over the elements; [acc] is the output so far,
    last element first. *)
Fixpoint clean_elems (root : bool) (acc : list string) (es : list string)
  : list string :=
  match es with
  | [] => acc
  | e :: es' =>
      if decide (e = "") then clean_elems root acc es'
      else if decide (e = ".") then clean_elems root acc es'
      else if decide (e = "..") then
        match acc with
        | top :: rest =>
            if decide (top = "..") then clean_elems root (e :: acc) es'
            else clean_elems root rest es'
        | [] =>
            if root then clean_elems root acc es'
            else clean_elems root (e :: acc) es'
        end
      else clean_elems root (e :: acc) es'
  end.

Fixpoint join_elems (es : list string) : string :=
  match es with
  | [] => ""
  | [e] => e
  | e :: es' => e +:+ "/" +:+ join_elems es'
  end.

Definition Clean (p : string) : string :=
  let root := rooted p in
  let body := join_elems (rev (clean_elems root [] (split p))) in
  if root then "/" +:+ body
  else if decide (body = "") then "." else body.

(** [Join] of two elements. *)
Definition Join (a b : string) : string :=
  if decide (a = "") then
    if decide (b = "") then "" else Clean b
  else Clean (a +:+ "/" +:+ b).

Fixpoint strip_slashes_rev (r : string) : string :=
  match r with
  | String c r' => if Ascii.eqb c slash then strip_slashes_rev r' else r
  | EmptyString => r
  end.

Fixpoint take_elem_rev (r : string) : string :=
  match r with
  | String c r' =>
      if Ascii.eqb c slash then "" else String c (take_elem_rev r')
  | EmptyString => ""
  end.

(** [Base]: the last element of the path; trailing slashes are removed
    first; [.] for the empty path, [/] for a path of slashes only. *)
Definition Base (p : string) : string :=
  if decide (p = "") then "."
  else
    let r := strip_slashes_rev (String.rev p) in
    let b := String.rev (take_elem_rev r) in
    if decide (b = "") then "/" else b.

(** [Ext]: the suffix of the last element that starts at its last dot. *)
Fixpoint ext_rev (acc : string) (r : string) : string :=
  match r with
  | String c r' =>
      if Ascii.eqb c slash then ""
      else if Ascii.eqb c "."%char then String c acc
      else ext_rev (String c acc) r'
  | EmptyString => ""
  end.
Definition Ext (p : string) : string := ext_rev "" (String.rev p).

(** [Dir]: all but the last element of a clean path. *)
Fixpoint drop_elem_rev (r : string) : string :=
  match r with
  | String c r' => if Ascii.eqb c slash then r else drop_elem_rev r'
  | EmptyString => ""
  end.
Definition Dir (p : string) : string :=
  Clean (String.rev (drop_elem_rev (String.rev p))).

End filepath.

(** ** The host file system *)

(** A node is a regular file with its content or a directory.  The file
    system maps clean path names to nodes; there are no links, and no
    failure other than those the paths themselves cause (a missing parent,
    a directory where a file is expected and the reverse). *)
Inductive Node : Type :=
| NFile (data : list byte)
| NDir.

Definition is_dir (fs : gmap string Node) (k : string) : bool :=
  match fs !! k with
  | Some NDir => true
  | _ => false
  end.

(** [under d k]: [k] is [d] or lies below it. *)
Definition under (d k : string) : bool :=
  bool_decide (k = d) || String.prefix (d +:+ "/") k.

Module osfs.
Import filepath.

Definition ENOENT : error := ErrExternal "no such file or directory".
Definition ENOTDIR : error := ErrExternal "not a directory".
Definition EISDIR : error := ErrExternal "is a directory".
Definition EEXIST : error := ErrExternal "file exists".

Definition stat (fs : gmap string Node) (p : string) : option error :=
  if decide (p = "") then Some ENOENT
  else match fs !! Clean p with
       | Some _ => None
       | None => Some ENOENT
       end.

(** Opening [p] for writing with O_CREATE and O_TRUNC, then writing
    [data]. *)
Definition write (fs : gmap string Node) (p : string) (data : list byte)
  : result (gmap string Node) :=
  if decide (p = "") then Err ENOENT
  else
    let k := Clean p in
    match fs !! k with
    | Some NDir => Err EISDIR
    | _ =>
        if is_dir fs (Dir k) then Ok (<[k := NFile data]> fs)
        else Err ENOENT
    end.

Definition read (fs : gmap string Node) (p : string) : result (list byte) :=
  if decide (p = "") then Err ENOENT
  else match fs !! Clean p with
       | Some (NFile data) => Ok data
       | Some NDir => Err EISDIR
       | None => Err ENOENT
       end.

(** [Mkdir] of one clean path. *)
Definition mkdir (fs : gmap string Node) (k : string)
  : result (gmap string Node) :=
  match fs !! k with
  | Some _ => Err EEXIST
  | None => if is_dir fs (Dir k) then Ok (<[k := NDir]> fs) else Err ENOENT
  end.

(** The path itself and its ancestors, the shortest first. *)
Fixpoint prefixes (cur : string) (es : list string) : list string :=
  match es with
  | [] => []
  | e :: es' =>
      let next :=
        if decide (cur = "") then e
        else if decide (cur = "/") then "/" +:+ e
        else cur +:+ "/" +:+ e in
      next :: prefixes next es'
  end.

Fixpoint mkdir_each (fs : gmap string Node) (ks : list string)
  : result (gmap string Node) :=
  match ks with
  | [] => Ok fs
  | k :: ks' =>
      match fs !! k with
      | Some NDir => mkdir_each fs ks'
      | Some (NFile _) => Err ENOTDIR
      | None =>
          match mkdir fs k with
          | Ok fs' => mkdir_each fs' ks'
          | Err e => Err e
          end
      end
  end.

Definition mkdir_all (fs : gmap string Node) (p : string)
  : result (gmap string Node) :=
  if decide (p = "") then Err ENOENT
  else
    let k := Clean p in
    match fs !! k with
    | Some NDir => Ok fs
    | Some (NFile _) => Err ENOTDIR
    | None =>
        mkdir_each fs
          (prefixes (if rooted k then "/" else "")
                    (List.filter (fun e => negb (String.eqb e "")) (split k)))
    end.

Definition remove_all (fs : gmap string Node) (p : string)
  : gmap string Node :=
  if decide (p = "") then fs
  else filter (fun kv => under (Clean p) kv.1 = false) fs.

Definition names_le (a b : string) : Prop := String.leb a b = true.
#[global] Instance names_le_dec a b : Decision (names_le a b).
Proof. unfold names_le. apply _. Defined.

(** The names of the entries of directory [p], sorted by name. *)
Definition read_dir (fs : gmap string Node) (p : string)
  : result (list string) :=
  if decide (p = "") then Err ENOENT
  else
    let d := Clean p in
    if is_dir fs d then
      Ok (merge_sort names_le
            (Base <$> List.filter
               (fun k => bool_decide (Dir k = d) && negb (bool_decide (k = d)))
               (map_to_list fs).*1))
    else Err ENOTDIR.

Definition TempDir : string := "/tmp".

(** The text before and after the last [*] of a pattern. *)
Fixpoint split_star_rev (suffix : string) (r : string) : string * string :=
  match r with
  | String c r' =>
      if Ascii.eqb c "*"%char then (String.rev r', suffix)
      else split_star_rev (String c suffix) r'
  | EmptyString => (suffix, "")
  end.
Definition prefixAndSuffix (pattern : string) : string * string :=
  split_star_rev "" (String.rev pattern).

(** [MkdirTemp]: candidate names are tried until one is free, at most
    [tries] times; [seq] stands for the source of random names. *)
Fixpoint mkdir_temp_try (tries : nat) (fs : gmap string Node)
    (dir pre suf : string) (seq : nat)
  : result string * gmap string Node * nat :=
  match tries with
  | O => (Err EEXIST, fs, seq)
  | S tries' =>
      let name := Join dir (pre +:+ itoa (Z.of_nat seq) +:+ suf) in
      match fs !! name with
      | Some _ => mkdir_temp_try tries' fs dir pre suf (S seq)
      | None =>
          match mkdir fs name with
          | Ok fs' => (Ok name, fs', S seq)
          | Err e => (Err e, fs, S seq)
          end
      end
  end.

Definition mkdir_temp (fs : gmap string Node) (dir pattern : string)
    (seq : nat) : result string * gmap string Node * nat :=
  let dir := if decide (dir = "") then TempDir else dir in
  let '(pre, suf) := prefixAndSuffix pattern in
  mkdir_temp_try (Z.to_nat 10000) fs dir pre suf seq.

End osfs.

(** ** The sandbox (wazero) *)

Inductive Context : Type :=
| ctx_background
| ctx_cancelled.

(** Where a stream of the sandbox goes: nowhere, into the call's buffer,
    or into the buffer and a writer of the caller ([io.MultiWriter]). *)
Inductive Writer : Type :=
| io_Discard
| to_buffer
| to_buffer_and (sink : nat).

Record Mount : Type := {
  host_dir : string;
  guest_path : string;
  read_only : bool
}.

Record ModuleConfig : Type := {
  mc_name : string;
  mc_stdout : Writer;
  mc_stderr : Writer;
  mc_fs : list Mount;
  mc_env : list (string * string)
}.

Definition NewFSConfig : list Mount := [].
Definition WithDirMount (h g : string) (fc : list Mount) : list Mount :=
  fc ++ [{| host_dir := h; guest_path := g; read_only := false |}].
Definition WithReadOnlyDirMount (h g : string) (fc : list Mount) : list Mount :=
  fc ++ [{| host_dir := h; guest_path := g; read_only := true |}].

Definition NewModuleConfig : ModuleConfig :=
  {| mc_name := ""; mc_stdout := io_Discard; mc_stderr := io_Discard;
     mc_fs := []; mc_env := [] |}.
Definition WithName (n : string) (m : ModuleConfig) : ModuleConfig :=
  {| mc_name := n; mc_stdout := mc_stdout m; mc_stderr := mc_stderr m;
     mc_fs := mc_fs m; mc_env := mc_env m |}.
Definition WithStdout (w : Writer) (m : ModuleConfig) : ModuleConfig :=
  {| mc_name := mc_name m; mc_stdout := w; mc_stderr := mc_stderr m;
     mc_fs := mc_fs m; mc_env := mc_env m |}.
Definition WithStderrWriter (w : Writer) (m : ModuleConfig) : ModuleConfig :=
  {| mc_name := mc_name m; mc_stdout := mc_stdout m; mc_stderr := w;
     mc_fs := mc_fs m; mc_env := mc_env m |}.
Definition WithFSConfig (fc : list Mount) (m : ModuleConfig) : ModuleConfig :=
  {| mc_name := mc_name m; mc_stdout := mc_stdout m; mc_stderr := mc_stderr m;
     mc_fs := fc; mc_env := mc_env m |}.
Definition WithEnv (k v : string) (m : ModuleConfig) : ModuleConfig :=
  {| mc_name := mc_name m; mc_stdout := mc_stdout m; mc_stderr := mc_stderr m;
     mc_fs := mc_fs m; mc_env := mc_env m ++ [(k, v)] |}.

(** What one call of an exported function does: the values it returns (as
    [uint64]), the error of the call itself (a trap, a closed runtime), the
    text it wrote to its error stream and the host files it leaves. *)
Record CallOutcome : Type := {
  results : list Z;
  callErr : option error;
  stderr_text : string;
  files_after : gmap string Node
}.

Record Function : Type := {
  Call : Context -> gmap string Node -> CallOutcome
}.

Record Module : Type := {
  ExportedFunction : string -> option Function
}.

Definition CompiledModule : Type := nat.

Record Runtime : Type := {
  InstantiateModule :
    Context -> CompiledModule -> ModuleConfig -> gmap string Node -> result Module
}.

(** ** Archives and HTTP responses *)

(** An [io.Reader] read to its end: the bytes it yields and the error, if
    any, that stops it before the end. *)
Record Reader : Type := {
  r_data : list byte;
  r_err : option error
}.

Definition bytes_NewReader (data : list byte) : Reader :=
  {| r_data := data; r_err := None |}.

Record Header : Type := {
  Typeflag : byte;
  Name : string
}.

Definition TypeReg : byte := x30.

(** The archive as [tar.Reader] delivers it: the entries in order, each
    with its header and payload, then [io.EOF], or [tape_err] when the
    stream is malformed there. *)
Record Tape : Type := {
  entries : list (Header * Reader);
  tape_err : option error
}.

Record Response : Type := {
  StatusCode : Z;
  ContentLength : Z;
  Body : Tape
}.

Definition StatusOK : Z := 200.

(** ** State, trace and monad *)

Record OS : Type := {
  fsys : gmap string Node;
  tmp_seq : nat
}.

(** One entry per call that leaves the package. *)
Inductive Event : Type :=
| EvStat (p : string)
| EvMkdirTemp (pattern : string) (r : result string)
| EvMkdirAll (p : string)
| EvWriteFile (p : string) (data : list byte)
| EvReadFile (p : string)
| EvReadDir (p : string) (r : result (list string))
| EvRemoveAll (p : string)
| EvCreate (p : string)
| EvCopy (p : string) (data : list byte)
| EvFileClose (p : string)
| EvNewRequest (url : string)
| EvHttpDo (url : string)
| EvBodyClose
| EvTarNext
| EvReadAll (name : string) (data : list byte)
| EvGzipNewReader (data : list byte)
| EvGzipClose
| EvInstantiate (cfg : ModuleConfig)
| EvExportedFunction (name : string)
| EvCall (name : string) (out : CallOutcome)
| EvModuleClose
| EvFprintf (sink : nat) (text : string).

Definition is_network (ev : Event) : bool :=
  match ev with
  | EvHttpDo _ => true
  | _ => false
  end.

Definition is_fs_write (ev : Event) : bool :=
  match ev with
  | EvMkdirTemp _ _ | EvMkdirAll _ | EvWriteFile _ _ | EvRemoveAll _
  | EvCreate _ | EvCopy _ _ => true
  | _ => false
  end.

Definition is_sandbox (ev : Event) : bool :=
  match ev with
  | EvInstantiate _ | EvExportedFunction _ | EvCall _ _ | EvModuleClose => true
  | _ => false
  end.

Definition is_workdir_alloc (ev : Event) : bool :=
  match ev with
  | EvMkdirTemp _ _ => true
  | _ => false
  end.

Definition M (A : Type) : Type := OS -> A * OS * list Event.

Definition ret {A} (a : A) : M A := fun s => (a, s, []).

Definition bind {A B} (m : M A) (k : A -> M B) : M B :=
  fun s =>
    let '(a, s1, t1) := m s in
    let '(b, s2, t2) := k a s1 in
    (b, s2, t1 ++ t2).

(** [defer]: [cleanup] runs when [body] returns, whatever it returns. *)
Definition defer {A} (cleanup : M unit) (body : M A) : M A :=
  fun s =>
    let '(a, s1, t1) := body s in
    let '(_, s2, t2) := cleanup s1 in
    (a, s2, t1 ++ t2).

Declare Scope go_scope.
Delimit Scope go_scope with go.
Notation "x <- m ;; k" := (bind m (fun x => k))
  (at level 100, m at next level, right associativity) : go_scope.
Notation "m ;;; k" := (bind m (fun _ => k))
  (at level 100, right associativity) : go_scope.
(** [v, err := m; if err != nil { return h err }; k] *)
Notation "'try' x <- m 'or_return' h ;; k" :=
  (bind m (fun r => match r with
                    | Err err => ret (Err (h err))
                    | Ok x => k
                    end))
  (at level 100, x name, m at next level, h at next level,
   right associativity) : go_scope.
(** [if err := m; err != nil { return h err }; k] *)
Notation "'check' m 'or_return' h ;; k" :=
  (bind m (fun r => match r with
                    | Some err => ret (Err (h err))
                    | None => k
                    end))
  (at level 100, m at next level, h at next level,
   right associativity) : go_scope.
Local Open Scope go_scope.

Definition emit (ev : Event) : M unit := fun s => (tt, s, [ev]).

Definition set_files (fs : gmap string Node) (s : OS) : OS :=
  {| fsys := fs; tmp_seq := tmp_seq s |}.

(** *** The os package *)

Definition os_Stat (p : string) : M (option error) :=
  fun s => (osfs.stat (fsys s) p, s, [EvStat p]).

Definition os_MkdirTemp (dir pattern : string) : M (result string) :=
  fun s =>
    let '(r, fs, seq) := osfs.mkdir_temp (fsys s) dir pattern (tmp_seq s) in
    (r, {| fsys := fs; tmp_seq := seq |}, [EvMkdirTemp pattern r]).

Definition os_MkdirAll (p : string) : M (option error) :=
  fun s =>
    match osfs.mkdir_all (fsys s) p with
    | Ok fs => (None, set_files fs s, [EvMkdirAll p])
    | Err e => (Some e, s, [EvMkdirAll p])
    end.

Definition os_WriteFile (p : string) (data : list byte) : M (option error) :=
  fun s =>
    match osfs.write (fsys s) p data with
    | Ok fs => (None, set_files fs s, [EvWriteFile p data])
    | Err e => (Some e, s, [EvWriteFile p data])
    end.

Definition os_ReadFile (p : string) : M (result (list byte)) :=
  fun s => (osfs.read (fsys s) p, s, [EvReadFile p]).

Definition os_ReadDir (p : string) : M (result (list string)) :=
  fun s =>
    let r := osfs.read_dir (fsys s) p in
    (r, s, [EvReadDir p r]).

Definition os_RemoveAll (p : string) : M unit :=
  fun s => (tt, set_files (osfs.remove_all (fsys s) p) s, [EvRemoveAll p]).

(** [os.Create]: the file is created or truncated; the handle is its path. *)
Definition os_Create (p : string) : M (result string) :=
  fun s =>
    match osfs.write (fsys s) p [] with
    | Ok fs => (Ok p, set_files fs s, [EvCreate p])
    | Err e => (Err e, s, [EvCreate p])
    end.

(** What the host does to a file that is being written, decided outside
    the package: [write_fault p data] is [Some (k, err)] when writing
    [data] to [p] stops with [err] after [k] bytes; [close_fault p] is the
    error of closing [p], if any. *)
Record FileFaults : Type := {
  write_fault : string -> list byte -> option (nat * error);
  close_fault : string -> option error
}.

Definition no_faults : FileFaults :=
  {| write_fault := fun _ _ => None; close_fault := fun _ => None |}.

(** [io.Copy(f, r)]: what [r] yields is written to [f].  When a write
    fails, the bytes written before it are in the file and the error of
    the write is returned; otherwise everything [r] yielded is in the file
    and the error of [r], if any, is returned. *)
Definition io_Copy (ff : FileFaults) (f : string) (r : Reader)
  : M (option error) :=
  fun s =>
    match write_fault ff f (r_data r) with
    | Some (k, err) =>
        (Some err,
         set_files (<[filepath.Clean f := NFile (take k (r_data r))]> (fsys s)) s,
         [EvCopy f (take k (r_data r))])
    | None =>
        (r_err r,
         set_files (<[filepath.Clean f := NFile (r_data r)]> (fsys s)) s,
         [EvCopy f (r_data r)])
    end.

(** [f.Close()] *)
Definition File_Close (ff : FileFaults) (f : string) : M (option error) :=
  fun s => (close_fault ff f, s, [EvFileClose f]).

(** [fmt.Fprintf] to a writer of the caller. *)
Definition Fprintf (sink : nat) (text : string) : M unit :=
  emit (EvFprintf sink text).

(** *** The wazero package *)

Definition wazero_InstantiateModule (rt : Runtime) (ctx : Context)
    (compiled : CompiledModule) (cfg : ModuleConfig) : M (result Module) :=
  fun s =>
    (InstantiateModule rt ctx compiled cfg (fsys s), s, [EvInstantiate cfg]).

Definition mod_ExportedFunction (m : Module) (name : string)
  : M (option Function) :=
  fun s => (ExportedFunction m name, s, [EvExportedFunction name]).

(** [fn.Call(ctx)]: the engine runs on the mounted host files; the text of
    its error stream goes where the module configuration sends it. *)
Definition fn_Call (fn : Function) (name : string) (ctx : Context)
    (cfg : ModuleConfig) : M CallOutcome :=
  fun s =>
    let out := Call fn ctx (fsys s) in
    (out, set_files (files_after out) s,
     EvCall name out ::
       match mc_stderr cfg with
       | to_buffer_and sink => [EvFprintf sink (stderr_text out)]
       | _ => []
       end).

(** What the call's buffer holds after the call. *)
Definition captured (cfg : ModuleConfig) (out : CallOutcome) : string :=
  match mc_stderr cfg with
  | io_Discard => ""
  | _ => stderr_text out
  end.

Definition mod_Close : M unit := emit EvModuleClose.

(** ** Options (options.go) *)

Record compilerConfig : Type := {
  defaultBundleDir : string;
  defaultFontsDir : string;
  compilationCacheDir : string
}.

Definition CompilerOption : Type := compilerConfig -> compilerConfig.

Definition WithDefaultBundleDir (dir : string) : CompilerOption :=
  fun c => {| defaultBundleDir := dir;
              defaultFontsDir := defaultFontsDir c;
              compilationCacheDir := compilationCacheDir c |}.

Definition WithDefaultFontsDir (dir : string) : CompilerOption :=
  fun c => {| defaultBundleDir := defaultBundleDir c;
              defaultFontsDir := dir;
              compilationCacheDir := compilationCacheDir c |}.

Definition WithCompilationCache (dir : string) : CompilerOption :=
  fun c => {| defaultBundleDir := defaultBundleDir c;
              defaultFontsDir := defaultFontsDir c;
              compilationCacheDir := dir |}.

(** [stderr] is the caller's writer, absent when nil. *)
Record compileConfig : Type := {
  bundleDir : string;
  fontsDir : string;
  stderr : option nat
}.

Definition CompileOption : Type := compileConfig -> compileConfig.

Definition WithBundleDir (dir : string) : CompileOption :=
  fun c => {| bundleDir := dir; fontsDir := fontsDir c; stderr := stderr c |}.

Definition WithFontsDir (dir : string) : CompileOption :=
  fun c => {| bundleDir := bundleDir c; fontsDir := dir; stderr := stderr c |}.

Definition WithStderr (w : nat) : CompileOption :=
  fun c => {| bundleDir := bundleDir c; fontsDir := fontsDir c;
              stderr := Some w |}.

(** [for _, o := range opts { o(&cfg) }] *)
Definition apply_opts {C} (opts : list (C -> C)) (cfg : C) : C :=
  fold_left (fun c o => o c) opts cfg.

(** ** The compiler (tecgonic.go) *)

Record Compiler : Type := {
  runtime : Runtime;
  compiled : CompiledModule;
  config : compilerConfig
}.

(** [for _, dir := range dirs { if err := os.MkdirAll(dir, 0o755); ... }] *)
Fixpoint mkdir_dirs (dirs : list string) : M (option error) :=
  match dirs with
  | [] => ret None
  | dir :: dirs' =>
      r <- os_MkdirAll dir ;;
      match r with
      | Some err =>
          ret (Some (Errorf ("tecgonic: creating directory " +:+ dir +:+ ": "
                             +:+ Error err) (Some err)))
      | None => mkdir_dirs dirs'
      end
  end.

(** Lines 131-158 of GenerateFormat: the format file is looked up in the
    cache directory and copied into the bundle directory. *)
Definition GenerateFormat_copy (bundleDir cacheDir stderrBuf : string)
  : M (result unit) :=
  let fmtPath := filepath.Join cacheDir "latex.fmt" in
  let copy (fmtPath : string) : M (result unit) :=
    try fmtData <- os_ReadFile fmtPath
      or_return (fun err =>
        Errorf ("tecgonic: reading generated format file: " +:+ Error err)
               (Some err)) ;;
    check os_WriteFile (filepath.Join bundleDir "latex.fmt") fmtData
      or_return (fun err =>
        Errorf ("tecgonic: writing format file to bundle dir: " +:+ Error err)
               (Some err)) ;;
    ret (Ok tt) in
  st <- os_Stat fmtPath ;;
  match st with
  | None => copy fmtPath
  | Some _ =>
      r <- os_ReadDir cacheDir ;;
      let entries := match r with Ok es => es | Err _ => [] end in
      match List.find (fun e => String.eqb (filepath.Ext e) ".fmt") entries with
      | Some e => copy (filepath.Join cacheDir e)
      | None =>
          ret (Err (Errorf ("tecgonic: no format file generated in cache (tectonic output: "
                            +:+ stderrBuf +:+ ")") None))
      end
  end.

Definition GenerateFormat (c : Compiler) (ctx : Context) (bundleDir : string)
  : M (result unit) :=
  if decide (bundleDir = "") then
    ret (Err (Errorf "tecgonic: no bundle directory specified" None))
  else
    st <- os_Stat (filepath.Join bundleDir "latex.fmt") ;;
    match st with
    | None => ret (Ok tt)
    | Some _ =>
      try tmpDir <- os_MkdirTemp "" "tecgonic-fmt-*"
        or_return (fun err =>
          Errorf ("tecgonic: creating temp dir: " +:+ Error err) (Some err)) ;;
      defer (os_RemoveAll tmpDir) (
        let inputDir := filepath.Join tmpDir "input" in
        let outputDir := filepath.Join tmpDir "output" in
        let cacheDir := filepath.Join tmpDir "cache" in
        let fontsDir := filepath.Join tmpDir "fonts" in
        check mkdir_dirs [inputDir; outputDir; cacheDir; fontsDir]
          or_return (fun err => err) ;;
        let fsConfig :=
          WithDirMount cacheDir "/cache"
            (WithDirMount fontsDir "/fonts"
               (WithReadOnlyDirMount bundleDir "/bundle"
                  (WithDirMount outputDir "/output"
                     (WithDirMount inputDir "/input" NewFSConfig)))) in
        let modConfig :=
          WithEnv "TECTONIC_CACHE_DIR" "/cache"
            (WithEnv "TECTONIC_FONT_DIR" "/fonts"
               (WithFSConfig fsConfig
                  (WithStderrWriter to_buffer
                     (WithStdout io_Discard
                        (WithName "" NewModuleConfig))))) in
        try md <- wazero_InstantiateModule (runtime c) ctx (compiled c) modConfig
          or_return (fun err =>
            Errorf ("tecgonic: instantiating module for format generation: "
                    +:+ Error err) (Some err)) ;;
        defer mod_Close (
          fn <- mod_ExportedFunction md "tectonic_generate_format" ;;
          match fn with
          | None =>
              ret (Err (Errorf "tecgonic: exported function tectonic_generate_format not found (rebuild WASM module with updated upstream)" None))
          | Some fn =>
            out <- fn_Call fn "tectonic_generate_format" ctx modConfig ;;
            let stderrBuf := captured modConfig out in
            match callErr out with
            | Some callErr =>
                ret (Err (ErrCompile (mkCompileError 2 stderrBuf (Some callErr))))
            | None =>
                if bool_decide (0 < length (results out))%nat
                   && negb (nth 0 (results out) 0 =? 0)
                then
                  ret (Err (ErrCompile
                    (mkCompileError (to_int32 (nth 0 (results out) 0))
                                    stderrBuf None)))
                else GenerateFormat_copy bundleDir cacheDir stderrBuf
            end
          end))
    end.

(** [Compile]: one compilation in a working directory and a sandbox
    instance of its own. *)
Definition Compile (c : Compiler) (ctx : Context) (texSource : list byte)
    (opts : list CompileOption) : M (result (list byte)) :=
  let cfg := apply_opts opts
    {| bundleDir := defaultBundleDir (config c);
       fontsDir := defaultFontsDir (config c);
       stderr := None |} in
  if decide (bundleDir cfg = "") then
    ret (Err (Errorf "tecgonic: no bundle directory specified (use WithDefaultBundleDir or WithBundleDir)" None))
  else
    try tmpDir <- os_MkdirTemp "" "tecgonic-*"
      or_return (fun err =>
        Errorf ("tecgonic: creating temp dir: " +:+ Error err) (Some err)) ;;
    defer (os_RemoveAll tmpDir) (
      let inputDir := filepath.Join tmpDir "input" in
      let outputDir := filepath.Join tmpDir "output" in
      let cacheDir := filepath.Join tmpDir "cache" in
      check mkdir_dirs [inputDir; outputDir; cacheDir]
        or_return (fun err => err) ;;
      let mkfonts : M (result string) :=
        if decide (fontsDir cfg = "") then
          let fontsDir := filepath.Join tmpDir "fonts" in
          check os_MkdirAll fontsDir
            or_return (fun err =>
              Errorf ("tecgonic: creating fonts dir: " +:+ Error err) (Some err)) ;;
          ret (Ok fontsDir)
        else ret (Ok (fontsDir cfg)) in
      try fontsDir <- mkfonts or_return (fun err => err) ;;
      let texPath := filepath.Join inputDir "input.tex" in
      check os_WriteFile texPath texSource
        or_return (fun err =>
          Errorf ("tecgonic: writing input.tex: " +:+ Error err) (Some err)) ;;
      let stderrWriter :=
        match stderr cfg with
        | Some w => to_buffer_and w
        | None => to_buffer
        end in
      let fsConfig :=
        WithDirMount cacheDir "/cache"
          (WithDirMount fontsDir "/fonts"
             (WithReadOnlyDirMount (bundleDir cfg) "/bundle"
                (WithDirMount outputDir "/output"
                   (WithDirMount inputDir "/input" NewFSConfig)))) in
      let modConfig :=
        WithEnv "TECTONIC_CACHE_DIR" "/cache"
          (WithEnv "TECTONIC_FONT_DIR" "/fonts"
             (WithFSConfig fsConfig
                (WithStderrWriter stderrWriter
                   (WithStdout io_Discard
                      (WithName "" NewModuleConfig))))) in
      try md <- wazero_InstantiateModule (runtime c) ctx (compiled c) modConfig
        or_return (fun err =>
          Errorf ("tecgonic: instantiating module: " +:+ Error err) (Some err)) ;;
      defer mod_Close (
        fn <- mod_ExportedFunction md "tectonic_compile_defaults" ;;
        match fn with
        | None =>
            ret (Err (Errorf "tecgonic: exported function tectonic_compile_defaults not found" None))
        | Some fn =>
          out <- fn_Call fn "tectonic_compile_defaults" ctx modConfig ;;
          let stderrBuf := captured modConfig out in
          match callErr out with
          | Some callErr =>
              ret (Err (ErrCompile (mkCompileError 2 stderrBuf (Some callErr))))
          | None =>
              if bool_decide (0 < length (results out))%nat
                 && negb (nth 0 (results out) 0 =? 0)
              then
                ret (Err (ErrCompile
                  (mkCompileError (to_int32 (nth 0 (results out) 0))
                                  stderrBuf None)))
              else
                let pdfPath := filepath.Join outputDir "input.pdf" in
                try pdfBytes <- os_ReadFile pdfPath
                  or_return (fun err =>
                    Errorf ("tecgonic: reading output PDF: " +:+ Error err
                            +:+ " (tectonic output: " +:+ stderrBuf +:+ ")")
                           (Some err)) ;;
                ret (Ok pdfBytes)
          end
        end)).

(** ** The bundle (bundle.go) *)

Definition DefaultBundleURL : string :=
  "https://relay.fullyjustified.net/default_bundle_v33.tar".

(** [progress] is the caller's writer, absent when nil.  The lines that
    count extracted files are part of the trace; the download progress of
    [progressReader], which depends on how the archive reader chunks its
    reads, is not: the wrapper hands on the bytes of the body unchanged. *)
Record prepareBundleConfig : Type := {
  progress : option nat
}.

Definition PrepareBundleOption : Type :=
  prepareBundleConfig -> prepareBundleConfig.

Definition WithProgress (w : nat) : PrepareBundleOption :=
  fun c => {| progress := Some w |}.

(** [writeFile]: the file is created, the reader copied into it, the file
    closed. *)
Definition writeFile (ff : FileFaults) (path : string) (r : Reader)
  : M (option error) :=
  f <- os_Create path ;;
  match f with
  | Err err => ret (Some err)
  | Ok f =>
      cp <- io_Copy ff f r ;;
      match cp with
      | Some err => _ <- File_Close ff f ;; ret (Some err)
      | None => File_Close ff f
      end
  end.

(** [io.ReadAll(tr)] on the payload of the current entry. *)
Definition io_ReadAll (name : string) (payload : Reader)
  : M (result (list byte)) :=
  fun s =>
    (match r_err payload with
     | Some err => Err err
     | None => Ok (r_data payload)
     end, s, [EvReadAll name (r_data payload)]).

Section Bundle.

(** The HTTP client, the gzip decoder and the faults of the files that
    are written are outside the package. *)
Variable http_NewRequestWithContext : Context -> string -> option error.
Variable http_Do : Context -> string -> result Response.
Variable gzip_NewReader : list byte -> result Reader.
Variable file_faults : FileFaults.

Definition NewRequest (ctx : Context) (url : string) : M (option error) :=
  fun s => (http_NewRequestWithContext ctx url, s, [EvNewRequest url]).

Definition DefaultClient_Do (ctx : Context) (url : string)
  : M (result Response) :=
  fun s => (http_Do ctx url, s, [EvHttpDo url]).

Definition gzip_open (data : list byte) : M (result Reader) :=
  fun s => (gzip_NewReader data, s, [EvGzipNewReader data]).

(** [if gr != nil { _ = gr.Close() }] *)
Definition gzip_close (gz : result Reader) : M unit :=
  match gz with
  | Ok _ => emit EvGzipClose
  | Err _ => ret tt
  end.

(** Lines 133-164 of PrepareBundle: one regular-file entry.  [files] is
    the count before the entry; the count after it is returned. *)
Definition extract_entry (destDir : string) (cfg : prepareBundleConfig)
    (header : Header) (payload : Reader) (files : Z) : M (result Z) :=
  let name := filepath.Base (Name header) in
  let destPath := filepath.Join destDir name in
  try entryData <- io_ReadAll name payload
    or_return (fun err =>
      Errorf ("tecgonic: reading entry " +:+ name +:+ ": " +:+ Error err)
             (Some err)) ;;
  gz <- gzip_open entryData ;;
  let reader :=
    match gz with
    | Ok gr => gr
    | Err _ => bytes_NewReader entryData
    end in
  w <- writeFile file_faults destPath reader ;;
  match w with
  | Some err =>
      _ <- gzip_close gz ;;
      ret (Err (Errorf ("tecgonic: writing " +:+ name +:+ ": " +:+ Error err)
                       (Some err)))
  | None =>
      _ <- gzip_close gz ;;
      let files := files + 1 in
      _ <- match progress cfg with
           | Some w =>
               if files mod 10000 =? 0 then
                 Fprintf w ("  Extracted " +:+ itoa files +:+ " files" +:+ nl)
               else ret tt
           | None => ret tt
           end ;;
      ret (Ok files)
  end.

(** Lines 120-165: the loop over the archive. *)
Fixpoint extract_loop (destDir : string) (cfg : prepareBundleConfig)
    (es : list (Header * Reader)) (tail : option error) (files : Z)
  : M (result Z) :=
  _ <- emit EvTarNext ;;
  match es with
  | [] =>
      match tail with
      | None => ret (Ok files)
      | Some err =>
          ret (Err (Errorf ("tecgonic: reading tar entry: " +:+ Error err)
                           (Some err)))
      end
  | (header, payload) :: es' =>
      if negb (Byte.eqb (Typeflag header) TypeReg) then
        extract_loop destDir cfg es' tail files
      else
        r <- extract_entry destDir cfg header payload files ;;
        match r with
        | Err err => ret (Err err)
        | Ok files => extract_loop destDir cfg es' tail files
        end
  end.

Definition PrepareBundle (ctx : Context) (destDir bundleURL : string)
    (force : bool) (opts : list PrepareBundleOption) : M (result unit) :=
  let cfg := apply_opts opts {| progress := None |} in
  let bundleURL :=
    if decide (bundleURL = "") then DefaultBundleURL else bundleURL in
  let download : M (result unit) :=
    check os_MkdirAll destDir
      or_return (fun err =>
        Errorf ("tecgonic: creating bundle dir: " +:+ Error err) (Some err)) ;;
    check NewRequest ctx bundleURL
      or_return (fun err =>
        Errorf ("tecgonic: creating request: " +:+ Error err) (Some err)) ;;
    try resp <- DefaultClient_Do ctx bundleURL
      or_return (fun err =>
        Errorf ("tecgonic: downloading bundle: " +:+ Error err) (Some err)) ;;
    defer (emit EvBodyClose) (
      if negb (StatusCode resp =? StatusOK) then
        ret (Err (Errorf ("tecgonic: downloading bundle: HTTP "
                          +:+ itoa (StatusCode resp)) None))
      else
        try files <- extract_loop destDir cfg (entries (Body resp))
                       (tape_err (Body resp)) 0
          or_return (fun err => err) ;;
        _ <- match progress cfg with
             | Some w =>
                 Fprintf w ("  Extracted " +:+ itoa files
                            +:+ " files (done)" +:+ nl)
             | None => ret tt
             end ;;
        try entries <- os_ReadDir destDir
          or_return (fun err =>
            Errorf ("tecgonic: reading bundle dir: " +:+ Error err)
                   (Some err)) ;;
        if (Z.of_nat (length entries) <? 100) then
          ret (Err (Errorf ("tecgonic: bundle extraction incomplete: only "
                            +:+ itoa (Z.of_nat (length entries))
                            +:+ " files extracted") None))
        else ret (Ok tt)) in
  if force then download
  else
    st <- os_Stat (filepath.Join destDir "SHA256SUM") ;;
    match st with
    | None => ret (Ok tt)
    | Some _ => download
    end.

End Bundle.

(** ** Notions used in the statements *)

(** [file_at fs k]: [k] is a regular file of [fs]. *)
Definition file_at (fs : gmap string Node) (k : string) : Prop :=
  exists data, fs !! k = Some (NFile data).

(** The engine calls of a trace, in order. *)
Fixpoint calls (tr : list Event) : list (string * CallOutcome) :=
  match tr with
  | [] => []
  | EvCall name out :: tr' => (name, out) :: calls tr'
  | _ :: tr' => calls tr'
  end.

(** What lines 246-261 of Compile (116-129 of GenerateFormat) return for
    the outcome of the call, when they return. *)
Definition classify (out : CallOutcome) : option CompileError :=
  match callErr out with
  | Some e => Some (mkCompileError 2 (stderr_text out) (Some e))
  | None =>
      if bool_decide (0 < length (results out))%nat
         && negb (nth 0 (results out) 0 =? 0)
      then Some (mkCompileError (to_int32 (nth 0 (results out) 0))
                                (stderr_text out) None)
      else None
  end.

(** What Compile returns once the call has returned [out]. *)
Definition Compile_after_call (tmpDir : string) (out : CallOutcome)
  : result (list byte) :=
  match classify out with
  | Some ce => Err (ErrCompile ce)
  | None =>
      match osfs.read (files_after out)
              (filepath.Join (filepath.Join tmpDir "output") "input.pdf") with
      | Ok pdfBytes => Ok pdfBytes
      | Err e =>
          Err (Errorf ("tecgonic: reading output PDF: " +:+ Error e
                       +:+ " (tectonic output: " +:+ stderr_text out +:+ ")")
                      (Some e))
      end
  end.

Definition not_CompileError {A} (r : result A) : Prop :=
  forall ce, r <> Err (ErrCompile ce).

(** The configuration Compile resolves from the defaults of the compiler
    and the options of the call (lines 164-170). *)
Definition Compile_config (c : Compiler) (opts : list CompileOption)
  : compileConfig :=
  apply_opts opts
    {| bundleDir := defaultBundleDir (config c);
       fontsDir := defaultFontsDir (config c);
       stderr := None |}.

(** A trace without sandbox work: no working directory is allocated, no
    module instantiated, no exported function looked up or called. *)
Definition no_sandbox_work (tr : list Event) : Prop :=
  Forall (fun ev => is_sandbox ev = false /\ is_workdir_alloc ev = false) tr.

Definition no_bundle_dir_error : error :=
  Errorf "tecgonic: no bundle directory specified (use WithDefaultBundleDir or WithBundleDir)" None.

(** The output file of a compilation whose working directory is [tmpDir]. *)
Definition pdf_path (tmpDir : string) : string :=
  filepath.Join (filepath.Join tmpDir "output") "input.pdf".

(** ** A small host, for examples *)

(** A host with a root, a temporary directory and an empty bundle
    directory. *)
Definition demo_fs : gmap string Node :=
  <["/bundle" := NDir]> (<["/tmp" := NDir]> (<["/" := NDir]> ∅)).

Definition demo_os : OS := {| fsys := demo_fs; tmp_seq := 0 |}.

(** An engine whose entry points return [rs] or fail with [ce], write
    [text] to the error stream and change the host files by [effect]. *)
Definition demo_function (rs : list Z) (ce : option error) (text : string)
    (effect : gmap string Node -> gmap string Node) : Function :=
  {| Call := fun _ fs =>
       {| results := rs; callErr := ce; stderr_text := text;
          files_after := effect fs |} |}.

Definition demo_module (fn : Function) : Module :=
  {| ExportedFunction := fun name =>
       if String.eqb name "tectonic_compile_defaults"
          || String.eqb name "tectonic_generate_format"
       then Some fn else None |}.

Definition demo_runtime (fn : Function) : Runtime :=
  {| InstantiateModule := fun ctx _ _ _ =>
       match ctx with
       | ctx_background => Ok (demo_module fn)
       | ctx_cancelled => Err (ErrExternal "module closed with context canceled")
       end |}.

Definition demo_compiler (fn : Function) (dir : string) : Compiler :=
  {| runtime := demo_runtime fn;
     compiled := 0%nat;
     config := {| defaultBundleDir := dir; defaultFontsDir := "";
                  compilationCacheDir := "" |} |}.

(** The outcome of the first engine call of a trace. *)
Definition call_outcome (tr : list Event) : CallOutcome :=
  match calls tr with
  | (_, out) :: _ => out
  | [] => {| results := []; callErr := None; stderr_text := "";
             files_after := ∅ |}
  end.

(** The document has an error: the entry point returns 1. *)
Definition run_tex_error : result (list byte) * OS * list Event :=
  Compile (demo_compiler
             (demo_function [1] None "! Undefined control sequence." id)
             "/bundle")
          ctx_background [] [] demo_os.

(** The entry point returns 0 and leaves no output file. *)
Definition run_no_output : result (list byte) * OS * list Event :=
  Compile (demo_compiler (demo_function [0] None "warning: nothing written" id)
             "/bundle")
          ctx_background [] [] demo_os.

(** The entry point returns 2 by itself: the call does not fail. *)
Definition run_code_two : result (list byte) * OS * list Event :=
  Compile (demo_compiler (demo_function [2] None "panicked" id) "/bundle")
          ctx_background [] [] demo_os.

(** The call traps. *)
Definition run_trap : result (list byte) * OS * list Event :=
  Compile (demo_compiler
             (demo_function [] (Some (ErrExternal "wasm error: unreachable"))
                            "panicked" id)
             "/bundle")
          ctx_background [] [] demo_os.

(** The engine writes the format file into the cache directory; the
    first GenerateFormat on the small host. *)
Definition run_format_first : result unit * OS * list Event :=
  GenerateFormat
    (demo_compiler
       (demo_function [0] None ""
          (fun fs => <["/tmp/tecgonic-fmt-0/cache/latex.fmt" := NFile [x25]]> fs))
       "/bundle")
    ctx_background "/bundle" demo_os.

(** The URL PrepareBundle downloads from (lines 76-78). *)
Definition bundle_url (url : string) : string :=
  if decide (url = "") then DefaultBundleURL else url.

(** A stand-in for the gzip decoder, for examples: data that starts with
    the gzip magic and the deflate method decodes to the bytes after its
    10-byte header; other data has no valid header. *)
Definition demo_gzip (data : list byte) : result Reader :=
  match data with
  | x1f :: x8b :: x08 :: rest => Ok (bytes_NewReader (drop 7 rest))
  | _ => Err (ErrExternal "gzip: invalid header")
  end.

(** An archive of two regular files, the first stored raw, the second
    with a gzip header, and a directory entry between them. *)
Definition demo_tape : Tape :=
  {| entries :=
       [({| Typeflag := TypeReg; Name := "bundle/SHA256SUM" |},
         bytes_NewReader [x61; x62]);
        ({| Typeflag := x35; Name := "bundle/tex/" |}, bytes_NewReader []);
        ({| Typeflag := TypeReg; Name := "bundle/tex/article.cls" |},
         bytes_NewReader
           [x1f; x8b; x08; x00; x00; x00; x00; x00; x00; x03; x25; x25])];
     tape_err := None |}.

(** A server that answers every request with [status] and the archive. *)
Definition demo_http (status : Z) (ctx : Context) (url : string)
  : result Response :=
  Ok {| StatusCode := status; ContentLength := 0; Body := demo_tape |}.

Definition demo_request (ctx : Context) (url : string) : option error := None.

(** The small host after an earlier extraction: the marker is there. *)
Definition demo_os_marker : OS :=
  {| fsys := <["/bundle/SHA256SUM" := NFile [x61; x62]]> demo_fs;
     tmp_seq := 0 |}.

(** The server answers 204. *)
Definition run_status_204 : result unit * OS * list Event :=
  PrepareBundle demo_request (demo_http 204) demo_gzip no_faults
    ctx_background "/bundle" "" false [] demo_os.

(** The server answers 200 with the archive of two files. *)
Definition run_two_files : result unit * OS * list Event :=
  PrepareBundle demo_request (demo_http 200) demo_gzip no_faults
    ctx_background "/bundle" "" false [] demo_os.

(** ** Projections of a trace *)

(** The files written with [os.WriteFile], the lines printed to writers
    of the caller, the module configurations instantiated, the temporary
    directories asked for, and the numbers of module closes and of
    look-ups of an exported function. *)
Fixpoint writes (tr : list Event) : list (string * list byte) :=
  match tr with
  | [] => []
  | EvWriteFile p data :: tr' => (p, data) :: writes tr'
  | _ :: tr' => writes tr'
  end.

Fixpoint prints (tr : list Event) : list (nat * string) :=
  match tr with
  | [] => []
  | EvFprintf w text :: tr' => (w, text) :: prints tr'
  | _ :: tr' => prints tr'
  end.

Fixpoint instantiated (tr : list Event) : list ModuleConfig :=
  match tr with
  | [] => []
  | EvInstantiate cfg :: tr' => cfg :: instantiated tr'
  | _ :: tr' => instantiated tr'
  end.

Fixpoint closes (tr : list Event) : nat :=
  match tr with
  | [] => 0
  | EvModuleClose :: tr' => S (closes tr')
  | _ :: tr' => closes tr'
  end.

Fixpoint lookups (tr : list Event) : nat :=
  match tr with
  | [] => 0
  | EvExportedFunction _ :: tr' => S (lookups tr')
  | _ :: tr' => lookups tr'
  end.

Fixpoint mktemps (tr : list Event) : list (string * result string) :=
  match tr with
  | [] => []
  | EvMkdirTemp pat r :: tr' => (pat, r) :: mktemps tr'
  | _ :: tr' => mktemps tr'
  end.

Definition rw_mount (h g : string) : Mount :=
  {| host_dir := h; guest_path := g; read_only := false |}.
Definition ro_mount (h g : string) : Mount :=
  {| host_dir := h; guest_path := g; read_only := true |}.

(** The mount and environment plan of a sandbox instance whose working
    directory is [tmpDir]: the bundle directory is the only read-only
    mount. *)
Definition sandbox_plan (tmpDir bundle fonts : string) (m : ModuleConfig)
  : Prop :=
  mc_fs m = [rw_mount (filepath.Join tmpDir "input") "/input";
             rw_mount (filepath.Join tmpDir "output") "/output";
             ro_mount bundle "/bundle"; rw_mount fonts "/fonts";
             rw_mount (filepath.Join tmpDir "cache") "/cache"]
  /\ mc_env m = [("TECTONIC_FONT_DIR", "/fonts");
                 ("TECTONIC_CACHE_DIR", "/cache")]
  /\ mc_stdout m = io_Discard
  /\ mc_stderr m <> io_Discard.

(** The fonts directory of a compilation (lines 194-201 of Compile). *)
Definition Compile_fonts (cfg : compileConfig) (tmpDir : string) : string :=
  if decide (fontsDir cfg = "") then filepath.Join tmpDir "fonts"
  else fontsDir cfg.

(** Lines 176-206 of Compile as a function of the host: the working
    directory and the host files the module is instantiated on, when the
    preparation succeeds. *)
Definition Compile_host (cfg : compileConfig) (texSource : list byte)
    (s : OS) : option (string * gmap string Node) :=
  match osfs.mkdir_temp (fsys s) "" "tecgonic-*" (tmp_seq s) with
  | (Ok tmpDir, fs, _) =>
      match osfs.mkdir_all fs (filepath.Join tmpDir "input") with
      | Ok fs =>
          match osfs.mkdir_all fs (filepath.Join tmpDir "output") with
          | Ok fs =>
              match osfs.mkdir_all fs (filepath.Join tmpDir "cache") with
              | Ok fs =>
                  match (if decide (fontsDir cfg = "")
                         then osfs.mkdir_all fs (filepath.Join tmpDir "fonts")
                         else Ok fs) with
                  | Ok fs =>
                      match osfs.write fs
                              (filepath.Join (filepath.Join tmpDir "input")
                                             "input.tex") texSource with
                      | Ok fs => Some (tmpDir, fs)
                      | Err _ => None
                      end
                  | Err _ => None
                  end
              | Err _ => None
              end
          | Err _ => None
          end
      | Err _ => None
      end
  | (Err _, _, _) => None
  end.

(** The entry point returns 1 and the caller asked for the error stream. *)
Definition run_tee : result (list byte) * OS * list Event :=
  Compile (demo_compiler
             (demo_function [1] None "! Undefined control sequence." id)
             "/bundle")
          ctx_background [x5c; x62; x79; x65] [WithStderr 7] demo_os.

(** ** Format generation: the file that is installed *)

(** Lines 131-147 of GenerateFormat as a function of the host files: the
    format file to copy, if there is one. *)
Definition found_format_file (fs : gmap string Node) (cacheDir : string)
  : option string :=
  match osfs.stat fs (filepath.Join cacheDir "latex.fmt") with
  | None => Some (filepath.Join cacheDir "latex.fmt")
  | Some _ =>
      match List.find (fun e => String.eqb (filepath.Ext e) ".fmt")
              match osfs.read_dir fs cacheDir with
              | Ok es => es
              | Err _ => []
              end with
      | Some e => Some (filepath.Join cacheDir e)
      | None => None
      end
  end.

Definition no_format_error (text : string) : error :=
  Errorf ("tecgonic: no format file generated in cache (tectonic output: "
          +:+ text +:+ ")") None.

(** The engine returns 0 and writes no format file. *)
Definition run_format_nothing : result unit * OS * list Event :=
  GenerateFormat
    (demo_compiler (demo_function [0] None "no format written" id) "/bundle")
    ctx_background "/bundle" demo_os.

(** The context of the call is cancelled before Compile starts. *)
Definition run_cancelled : result (list byte) * OS * list Event :=
  Compile (demo_compiler (demo_function [0] None "" id) "/bundle")
          ctx_cancelled [] [] demo_os.

(** ** Extraction: what ends up in the destination directory *)

(** The entries the loop extracts (line 129). *)
Definition is_regular (hp : Header * Reader) : bool :=
  Byte.eqb (Typeflag hp.1) TypeReg.

Definition regular (es : list (Header * Reader)) : list (Header * Reader) :=
  List.filter is_regular es.

(** Where an entry goes: the archive is flattened (lines 133-134). *)
Definition dest_path (destDir : string) (h : Header) : string :=
  filepath.Join destDir (filepath.Base (Name h)).

(** What is written for a payload: the decoder's output when the payload
    has a gzip header, the payload itself otherwise (lines 143-149). *)
Definition entry_reader (gzip_NewReader : list byte -> result Reader)
    (data : list byte) : Reader :=
  match gzip_NewReader data with
  | Ok gr => gr
  | Err _ => bytes_NewReader data
  end.

(** The destination after the regular entries of [es] were written in
    order. *)
Fixpoint extract_fs (gzip_NewReader : list byte -> result Reader)
    (destDir : string) (es : list (Header * Reader)) (fs : gmap string Node)
  : gmap string Node :=
  match es with
  | [] => fs
  | hp :: es' =>
      extract_fs gzip_NewReader destDir es'
        (if is_regular hp
         then <[filepath.Clean (dest_path destDir hp.1) :=
                  NFile (r_data (entry_reader gzip_NewReader (r_data hp.2)))]> fs
         else fs)
  end.

(** The files created, the requests sent, and the numbers of gzip readers
    and response bodies closed, of a trace. *)
Fixpoint creates (tr : list Event) : list string :=
  match tr with
  | [] => []
  | EvCreate p :: tr' => p :: creates tr'
  | _ :: tr' => creates tr'
  end.

Fixpoint http_requests (tr : list Event) : list string :=
  match tr with
  | [] => []
  | EvHttpDo u :: tr' => u :: http_requests tr'
  | _ :: tr' => http_requests tr'
  end.

Fixpoint gzip_opened (tr : list Event) : list (list byte) :=
  match tr with
  | [] => []
  | EvGzipNewReader data :: tr' => data :: gzip_opened tr'
  | _ :: tr' => gzip_opened tr'
  end.

Fixpoint gzip_closes (tr : list Event) : nat :=
  match tr with
  | [] => 0
  | EvGzipClose :: tr' => S (gzip_closes tr')
  | _ :: tr' => gzip_closes tr'
  end.

Fixpoint file_closes (tr : list Event) : list string :=
  match tr with
  | [] => []
  | EvFileClose p :: tr' => p :: file_closes tr'
  | _ :: tr' => file_closes tr'
  end.


Fixpoint copies (tr : list Event) : list (string * list byte) :=
  match tr with
  | [] => []
  | EvCopy p data :: tr' => (p, data) :: copies tr'
  | _ :: tr' => copies tr'
  end.


(** The gzip readers of a trace that were opened: the payloads the decoder
    accepted. *)
Definition gzip_readers (gzip_NewReader : list byte -> result Reader)
    (tr : list Event) : list (list byte) :=
  List.filter (fun data => match gzip_NewReader data with
                           | Ok _ => true
                           | Err _ => false
                           end) (gzip_opened tr).

(** The events of the extraction loop. *)
Definition is_extraction (ev : Event) : bool :=
  match ev with
  | EvTarNext | EvReadAll _ _ | EvGzipNewReader _ | EvGzipClose
  | EvCreate _ | EvCopy _ _ | EvFileClose _ | EvFprintf _ _ => true
  | _ => false
  end.

Fixpoint body_closes (tr : list Event) : nat :=
  match tr with
  | [] => 0
  | EvBodyClose :: tr' => S (body_closes tr')
  | _ :: tr' => body_closes tr'
  end.

(** The last progress line (lines 167-169). *)
Definition done_line (cfg : prepareBundleConfig) (files : Z) : list Event :=
  match progress cfg with
  | Some w =>
      [EvFprintf w ("  Extracted " +:+ itoa files +:+ " files (done)" +:+ nl)]
  | None => []
  end.

(** The options of a call of PrepareBundle, resolved (lines 71-74). *)
Definition PrepareBundle_config (opts : list PrepareBundleOption)
  : prepareBundleConfig :=
  apply_opts opts {| progress := None |}.

(** What PrepareBundle does before it sends the request. *)
Definition before_request (destDir : string) (force : bool) : list Event :=
  (if force then [] else [EvStat (filepath.Join destDir "SHA256SUM")])
  ++ [EvMkdirAll destDir].

(** A host whose bundle directory already holds a hundred files, and a
    forced download onto it, with progress reported to writer 3. *)
Definition demo_fs_full : gmap string Node :=
  fold_right (fun i fs => <["/bundle/f" +:+ itoa (Z.of_nat i) := NFile []]> fs)
             demo_fs (seq 0 100).

Definition run_forced : result unit * OS * list Event :=
  PrepareBundle demo_request (demo_http 200) demo_gzip no_faults
    ctx_background "/bundle" "" true [WithProgress 3]
    {| fsys := demo_fs_full; tmp_seq := 0 |}.

(** A host whose disk is full after one byte of every file, and two
    bytes written to a file on it. *)
Definition disk_full : FileFaults :=
  {| write_fault := fun _ _ =>
       Some (1%nat, ErrExternal "no space left on device");
     close_fault := fun _ => None |}.

Definition run_write_partial : option error * OS * list Event :=
  writeFile disk_full "/bundle/x" (bytes_NewReader [x61; x62]) demo_os.

(** ** Options as the package offers them *)

(** The option types are functions on unexported structs, so the options
    a caller can pass are the ones the package constructs. *)
Inductive compile_option : Type :=
| OptBundleDir (dir : string)
| OptFontsDir (dir : string)
| OptStderr (w : nat).

Definition to_CompileOption (o : compile_option) : CompileOption :=
  match o with
  | OptBundleDir dir => WithBundleDir dir
  | OptFontsDir dir => WithFontsDir dir
  | OptStderr w => WithStderr w
  end.

Inductive compiler_option : Type :=
| OptDefaultBundleDir (dir : string)
| OptDefaultFontsDir (dir : string)
| OptCompilationCache (dir : string).

Definition to_CompilerOption (o : compiler_option) : CompilerOption :=
  match o with
  | OptDefaultBundleDir dir => WithDefaultBundleDir dir
  | OptDefaultFontsDir dir => WithDefaultFontsDir dir
  | OptCompilationCache dir => WithCompilationCache dir
  end.

Definition sets_bundleDir (o : compile_option) : option string :=
  match o with OptBundleDir dir => Some dir | _ => None end.
Definition sets_fontsDir (o : compile_option) : option string :=
  match o with OptFontsDir dir => Some dir | _ => None end.
Definition sets_stderr (o : compile_option) : option nat :=
  match o with OptStderr w => Some w | _ => None end.

Definition sets_defaultBundleDir (o : compiler_option) : option string :=
  match o with OptDefaultBundleDir dir => Some dir | _ => None end.
Definition sets_defaultFontsDir (o : compiler_option) : option string :=
  match o with OptDefaultFontsDir dir => Some dir | _ => None end.

(** ** New (tecgonic.go) *)

(** The wazero entry points New uses.  [NewRuntimeWithConfig] gets the
    one setting of the runtime configuration, close-on-context-done. *)
Record Wazero : Type := {
  NewRuntimeWithConfig : Context -> bool -> Runtime;
  wasi_Instantiate : Context -> Runtime -> option error;
  CompileModule : Runtime -> Context -> list byte -> result CompiledModule
}.

Inductive RuntimeEvent : Type :=
| EvNewRuntime (closeOnContextDone : bool)
| EvWasiInstantiate
| EvCompileModule (wasm : list byte)
| EvRuntimeClose.

(** [TectonicWASM] is the embedded module of package wasm. *)
Definition New (wz : Wazero) (TectonicWASM : list byte) (ctx : Context)
    (opts : list CompilerOption)
  : result Compiler * list RuntimeEvent :=
  let cfg := apply_opts opts
    {| defaultBundleDir := ""; defaultFontsDir := "";
       compilationCacheDir := "" |} in
  let rt := NewRuntimeWithConfig wz ctx true in
  match wasi_Instantiate wz ctx rt with
  | Some err =>
      (Err (Errorf ("tecgonic: instantiating WASI: " +:+ Error err) (Some err)),
       [EvNewRuntime true; EvWasiInstantiate; EvRuntimeClose])
  | None =>
      match CompileModule wz rt ctx TectonicWASM with
      | Err err =>
          (Err (Errorf ("tecgonic: compiling WASM module: " +:+ Error err)
                       (Some err)),
           [EvNewRuntime true; EvWasiInstantiate;
            EvCompileModule TectonicWASM; EvRuntimeClose])
      | Ok compiled =>
          (Ok {| runtime := rt; compiled := compiled; config := cfg |},
           [EvNewRuntime true; EvWasiInstantiate;
            EvCompileModule TectonicWASM])
      end
  end.

(** ** The download progress (bundle.go) *)


Module progressReader.

(** The wrapped reader [r] is what the calls of [Read] are given: each
    call gets the count and error the wrapped reader returned. *)
Record t : Type := {
  total : Z;
  read : Z;
  w : nat;
  last : Z
}.



End progressReader.



(** A host for New whose two steps return [wasi] and [cm]. *)
Definition demo_wazero (wasi : option error) (cm : result CompiledModule)
  : Wazero :=
  {| NewRuntimeWithConfig :=
       fun _ _ => demo_runtime (demo_function [0] None "" id);
     wasi_Instantiate := fun _ _ => wasi;
     CompileModule := fun _ _ _ => cm |}.

(** New on a host whose WASI instantiation fails. *)
Definition wasi_fails : Wazero :=
  demo_wazero (Some (ErrExternal "wasi: closed")) (Ok 0%nat).

Definition new_failed : result Compiler * list RuntimeEvent :=
  New wasi_fails [] ctx_background [].



(** * Properties *)

(** ** The file system *)

Lemma write_ok fs p data fs' :
  osfs.write fs p data = Ok fs' ->
  p <> "" /\ fs' = <[filepath.Clean p := NFile data]> fs.
Proof.
  unfold osfs.write. destruct (decide (p = "")); [discriminate|].
  destruct (fs !! filepath.Clean p) as [[|]|];
    destruct (is_dir fs (filepath.Dir (filepath.Clean p)));
    intros [= <-] || discriminate; auto.
Qed.

Lemma write_err fs p data e :
  osfs.write fs p data = Err e ->
  forall data', osfs.write fs p data' = Err e.
Proof.
  unfold osfs.write. intros H data'. destruct (decide (p = "")); [done|].
  destruct (fs !! filepath.Clean p) as [[|]|];
    destruct (is_dir fs (filepath.Dir (filepath.Clean p))); done.
Qed.

Lemma read_absent fs p :
  fs !! filepath.Clean p = None -> osfs.read fs p = Err osfs.ENOENT.
Proof.
  intros H. unfold osfs.read. destruct (decide (p = "")); [done|].
  by rewrite H.
Qed.

Lemma stat_present fs p :
  p <> "" -> is_Some (fs !! filepath.Clean p) -> osfs.stat fs p = None.
Proof.
  intros Hp [x Hx]. unfold osfs.stat.
  destruct (decide (p = "")); [done|]. by rewrite Hx.
Qed.

Lemma remove_all_lookup fs d k :
  under (filepath.Clean d) k = false ->
  osfs.remove_all fs d !! k = fs !! k.
Proof.
  intros Hu. unfold osfs.remove_all. destruct (decide (d = "")); [done|].
  destruct (fs !! k) as [x|] eqn:Hk.
  - apply map_lookup_filter_Some. auto.
  - apply map_lookup_filter_None. left. done.
Qed.

Lemma file_at_insert fs k k' data :
  file_at fs k -> file_at (<[k' := NFile data]> fs) k.
Proof.
  intros [d Hd]. unfold file_at. destruct (decide (k' = k)) as [->|Hne].
  - rewrite lookup_insert_eq. eauto.
  - rewrite lookup_insert_ne by done. eauto.
Qed.

(** ** Runs *)

Lemma bind_inv {A B} (m : M A) (k : A -> M B) s r s' tr :
  bind m k s = (r, s', tr) ->
  exists a s1 t1 t2,
    m s = (a, s1, t1) /\ k a s1 = (r, s', t2) /\ tr = t1 ++ t2.
Proof.
  unfold bind. destruct (m s) as [[a s1] t1].
  destruct (k a s1) as [[b s2] t2] eqn:Hk.
  intros [= <- <- <-]. exists a, s1, t1, t2. auto.
Qed.

Lemma defer_inv {A} (cl : M unit) (body : M A) s r s' tr :
  defer cl body s = (r, s', tr) ->
  exists s1 t1 t2,
    body s = (r, s1, t1) /\ cl s1 = (tt, s', t2) /\ tr = t1 ++ t2.
Proof.
  unfold defer. destruct (body s) as [[a s1] t1].
  destruct (cl s1) as [[[] s2] t2] eqn:Hc.
  intros [= <- <- <-]. exists s1, t1, t2. auto.
Qed.

#[local] Opaque osfs.mkdir_temp osfs.mkdir_all osfs.write osfs.read
  osfs.read_dir osfs.remove_all osfs.stat
  filepath.Join filepath.Base filepath.Clean String.append.

(** The three components of a run. *)
Ltac triple H :=
  first [discriminate H | injection H as <- <- <- | injection H as <- <-].

(** One step of the inversion of a run: a bind or a defer is split, a call
    of a package is replaced by its result, state and trace, a branch on a
    result is taken. *)
Ltac run_step :=
  match goal with
  | H : bind _ _ _ = (_, _, _) |- _ =>
      apply bind_inv in H; destruct H as (? & ? & ? & ? & ? & H & ->);
      cbv beta zeta in H
  | H : defer _ _ _ = (_, _, _) |- _ =>
      apply defer_inv in H; destruct H as (? & ? & ? & H & ? & ->);
      cbv beta zeta in H
  | H : os_Stat _ _ = (_, _, _) |- _ => unfold os_Stat in H; triple H
  | H : os_MkdirTemp _ _ _ = (_, _, _) |- _ =>
      unfold os_MkdirTemp in H;
      match type of H with
      | context [osfs.mkdir_temp ?a ?b ?c ?d] =>
          destruct (osfs.mkdir_temp a b c d) as [[? ?] ?] eqn:?
      end; triple H
  | H : os_MkdirAll _ _ = (_, _, _) |- _ =>
      unfold os_MkdirAll in H;
      match type of H with
      | context [osfs.mkdir_all ?a ?b] => destruct (osfs.mkdir_all a b) eqn:?
      end; triple H
  | H : os_WriteFile _ _ _ = (_, _, _) |- _ =>
      unfold os_WriteFile in H;
      match type of H with
      | context [osfs.write ?a ?b ?c] => destruct (osfs.write a b c) eqn:?
      end; triple H
  | H : os_ReadFile _ _ = (_, _, _) |- _ => unfold os_ReadFile in H; triple H
  | H : os_ReadDir _ _ = (_, _, _) |- _ =>
      unfold os_ReadDir in H; cbv zeta in H; triple H
  | H : os_RemoveAll _ _ = (_, _, _) |- _ => unfold os_RemoveAll in H; triple H
  | H : os_Create _ _ = (_, _, _) |- _ =>
      unfold os_Create in H;
      match type of H with
      | context [osfs.write ?a ?b ?c] => destruct (osfs.write a b c) eqn:?
      end; triple H
  | H : io_Copy _ _ _ _ = (_, _, _) |- _ =>
      unfold io_Copy in H;
      match type of H with
      | context [write_fault ?a ?b ?c] =>
          destruct (write_fault a b c) as [[? ?]|] eqn:?
      end; triple H
  | H : File_Close _ _ _ = (_, _, _) |- _ =>
      unfold File_Close in H;
      match type of H with
      | _ = (?r, _, _) =>
          first [is_var r; injection H as <- <- <- | injection H as ? <- <-]
      end
  | H : io_ReadAll _ _ _ = (_, _, _) |- _ => unfold io_ReadAll in H; triple H
  | H : Fprintf _ _ _ = (_, _, _) |- _ => unfold Fprintf, emit in H; triple H
  | H : mod_Close _ = (_, _, _) |- _ => unfold mod_Close, emit in H; triple H
  | H : emit _ _ = (_, _, _) |- _ => unfold emit in H; triple H
  | H : wazero_InstantiateModule _ _ _ _ _ = (_, _, _) |- _ =>
      unfold wazero_InstantiateModule in H; triple H
  | H : mod_ExportedFunction _ _ _ = (_, _, _) |- _ =>
      unfold mod_ExportedFunction in H; triple H
  | H : fn_Call _ _ _ _ _ = (_, _, _) |- _ =>
      unfold fn_Call in H; cbv zeta in H; triple H
  | H : mkdir_dirs _ _ = (_, _, _) |- _ => cbn [mkdir_dirs] in H
  | H : ret _ _ = (_, _, _) |- _ => unfold ret in H; simplify_eq
  | H : (match ?x with _ => _ end) _ = (_, _, _) |- _ =>
      destruct x eqn:?; cbv beta iota zeta in H
  | H : (if ?x then _ else _) _ = (_, _, _) |- _ =>
      destruct x eqn:?; cbv beta iota zeta in H
  end.

Ltac run_inv := repeat run_step; cbn [fsys tmp_seq set_files] in *.

Ltac rewrite_hyps :=
  repeat match goal with
         | H : ?x = _ |- context [?x] => rewrite H
         end.

Lemma in_calls name out tr :
  In (EvCall name out) tr <-> In (name, out) (calls tr).
Proof.
  induction tr as [|ev tr IH]; simpl; [tauto|].
  destruct ev; simpl; rewrite <- ?IH;
    try (split; [intros [H|H]; [discriminate|auto] | auto]).
  split; intros [H|H]; auto; left; congruence.
Qed.

(** A run of Compile either never calls the engine, and then does not
    return a CompileError, or calls it once and returns what the code
    after the call makes of the outcome. *)
Lemma Compile_inv c ctx tex opts s r s' tr :
  Compile c ctx tex opts s = (r, s', tr) ->
  (calls tr = [] /\ not_CompileError r)
  \/ exists tmpDir out,
       In (EvMkdirTemp "tecgonic-*" (Ok tmpDir)) tr
       /\ calls tr = [("tectonic_compile_defaults", out)]
       /\ r = Compile_after_call tmpDir out.
Proof.
  intros Hrun. unfold Compile in Hrun.
  remember (apply_opts opts _) as cfg eqn:Hcfg in Hrun. clear Hcfg.
  run_inv.
  all: unfold captured in *; simpl mc_stderr in *.
  all: try solve [left; split; [reflexivity | intros ce; discriminate]].
  all: right; eexists _, _; split; [cbn [app]; left; reflexivity|].
  all: destruct (stderr cfg); (split; [reflexivity|]).
  all: unfold Compile_after_call, classify; rewrite_hyps; reflexivity.
Qed.

(** The same for GenerateFormat: after a call that [classify] lets pass,
    the rest of the function returns no CompileError. *)
Lemma GenerateFormat_inv c ctx dir s r s' tr :
  GenerateFormat c ctx dir s = (r, s', tr) ->
  (calls tr = [] /\ not_CompileError r)
  \/ exists out,
       calls tr = [("tectonic_generate_format", out)]
       /\ match classify out with
          | Some ce => r = Err (ErrCompile ce)
          | None => not_CompileError r
          end.
Proof.
  intros Hrun. unfold GenerateFormat, GenerateFormat_copy in Hrun.
  run_inv.
  all: unfold captured in *; simpl mc_stderr in *.
  all: try solve [left; split; [reflexivity | intros ce; discriminate]].
  all: right; eexists; (split; [reflexivity|]).
  all: unfold classify; rewrite_hyps; try reflexivity.
  all: intros ce; discriminate.
Qed.

(** ** The error classifier *)

Lemma to_int32_small n : 0 <= n < 2 ^ 32 -> to_int32 n mod 2 ^ 32 = n.
Proof.
  intros Hn. unfold to_int32. rewrite (Z.mod_small n) by lia.
  destruct (n <? 2 ^ 31) eqn:Hlt.
  - apply Z.mod_small. lia.
  - apply Z.ltb_ge in Hlt.
    replace (n - 2 ^ 32) with (n + (-1) * 2 ^ 32) by lia.
    rewrite Z.mod_add by lia. apply Z.mod_small. lia.
Qed.

Lemma to_int32_eq n k :
  0 <= n < 2 ^ 32 -> 0 <= k < 2 ^ 31 -> to_int32 n = k -> n = k.
Proof.
  intros Hn Hk H. rewrite <- (to_int32_small n Hn), H.
  apply Z.mod_small. lia.
Qed.

Lemma run_eq {A} (x : A * OS * list Event) : x = (x.1.1, x.1.2, x.2).
Proof. by destruct x as [[? ?] ?]. Qed.

Lemma Compile_call c ctx tex opts s r s' tr name out :
  Compile c ctx tex opts s = (r, s', tr) ->
  In (EvCall name out) tr ->
  exists tmpDir,
    In (EvMkdirTemp "tecgonic-*" (Ok tmpDir)) tr
    /\ r = Compile_after_call tmpDir out.
Proof.
  intros Hrun Hin. apply in_calls in Hin.
  destruct (Compile_inv _ _ _ _ _ _ _ _ Hrun)
    as [[Hc _]|(tmpDir & out' & Ht & Hc & Hr)];
    rewrite Hc in Hin; [destruct Hin|].
  destruct Hin as [[= <- <-]|[]]. eauto.
Qed.

(** C1.  When the call of the entry point in Compile returns the numeric
    code [n] (a 32-bit value, which the runtime hands over as [uint64]):
    for 0 the result is no CompileError, and it is the content of the
    output file when that file can be read; for 1 it is a CompileError with
    IsTexError and without IsPanic; for 2 a CompileError with IsPanic and
    without IsTexError; for any other code a CompileError that carries the
    code, with neither predicate.  The error is determined by [n]; the
    text of the error stream is only copied into it. *)
Theorem Compile_classifies_code c ctx tex opts s r s' tr name out n rest :
  Compile c ctx tex opts s = (r, s', tr) ->
  In (EvCall name out) tr ->
  callErr out = None ->
  results out = n :: rest ->
  0 <= n < 2 ^ 32 ->
  (n = 0 ->
     not_CompileError r
     /\ exists tmpDir,
          In (EvMkdirTemp "tecgonic-*" (Ok tmpDir)) tr
          /\ forall pdfBytes,
               osfs.read (files_after out) (pdf_path tmpDir) = Ok pdfBytes ->
               r = Ok pdfBytes)
  /\ (n = 1 -> exists ce, r = Err (ErrCompile ce)
                /\ IsTexError ce = true /\ IsPanic ce = false)
  /\ (n = 2 -> exists ce, r = Err (ErrCompile ce)
                /\ IsPanic ce = true /\ IsTexError ce = false)
  /\ (n <> 0 -> n <> 1 -> n <> 2 ->
      exists ce, r = Err (ErrCompile ce) /\ ExitCode ce mod 2 ^ 32 = n
                 /\ IsTexError ce = false /\ IsPanic ce = false)
  /\ (n <> 0 ->
      r = Err (ErrCompile (mkCompileError (to_int32 n) (stderr_text out) None))).
Proof.
  intros Hrun Hin Hce Hres Hn.
  destruct (Compile_call _ _ _ _ _ _ _ _ _ _ Hrun Hin) as (tmpDir & Ht & ->).
  unfold Compile_after_call, classify. rewrite Hce, Hres. cbn [length nth].
  rewrite bool_decide_true by (simpl; lia). cbn [andb].
  split; [|repeat split].
  - intros ->. simpl. fold (pdf_path tmpDir). split.
    + intros ce. destruct (osfs.read _ _); discriminate.
    + exists tmpDir. split; [exact Ht|]. intros pdfBytes ->. reflexivity.
  - intros ->. eexists; split; [reflexivity|]. auto.
  - intros ->. eexists; split; [reflexivity|]. auto.
  - intros H0 H1 H2. apply Z.eqb_neq in H0 as H0'. rewrite H0'. cbn [negb].
    eexists; split; [reflexivity|]. cbn [ExitCode].
    split; [apply to_int32_small, Hn|].
    unfold IsTexError, IsPanic. cbn [ExitCode].
    split; apply Z.eqb_neq; intros Heq;
      apply to_int32_eq in Heq; try done; lia.
  - intros H0. apply Z.eqb_neq in H0. rewrite H0. reflexivity.
Qed.

Lemma Compile_classifies_code_witness :
  exists ce, run_tex_error.1.1 = Err (ErrCompile ce)
             /\ IsTexError ce = true /\ IsPanic ce = false.
Proof.
  refine (proj1 (proj2
    (Compile_classifies_code _ _ _ _ _ _ _ _
       "tectonic_compile_defaults" (call_outcome run_tex_error.2) 1 []
       (run_eq run_tex_error) _ _ _ _)) eq_refl).
  - apply in_calls. vm_compute. left. reflexivity.
  - vm_compute. reflexivity.
  - vm_compute. reflexivity.
  - lia.
Defined.

(** C2.  When the entry point returns zero and the output file is absent
    from the output directory, Compile returns an error whose message
    contains the text of the error stream; it does not return the bytes
    of a document. *)
Theorem Compile_missing_output c ctx tex opts s r s' tr name out rest :
  Compile c ctx tex opts s = (r, s', tr) ->
  In (EvCall name out) tr ->
  callErr out = None ->
  results out = 0 :: rest ->
  (forall tmpDir, In (EvMkdirTemp "tecgonic-*" (Ok tmpDir)) tr ->
     files_after out !! filepath.Clean (pdf_path tmpDir) = None) ->
  (exists e,
     r = Err (Errorf ("tecgonic: reading output PDF: " +:+ Error e
                      +:+ " (tectonic output: " +:+ stderr_text out +:+ ")")
                     (Some e)))
  /\ forall pdfBytes, r <> Ok pdfBytes.
Proof.
  intros Hrun Hin Hce Hres Habs.
  destruct (Compile_call _ _ _ _ _ _ _ _ _ _ Hrun Hin) as (tmpDir & Ht & ->).
  unfold Compile_after_call, classify. rewrite Hce, Hres. cbn [length nth].
  rewrite Z.eqb_refl, andb_false_r.
  fold (pdf_path tmpDir). rewrite (read_absent _ _ (Habs _ Ht)).
  split; [eauto | discriminate].
Qed.

Lemma Compile_missing_output_witness :
  (exists e,
     run_no_output.1.1 =
       Err (Errorf ("tecgonic: reading output PDF: " +:+ Error e
                    +:+ " (tectonic output: warning: nothing written)")
                   (Some e)))
  /\ forall pdfBytes, run_no_output.1.1 <> Ok pdfBytes.
Proof.
  refine (Compile_missing_output _ _ _ _ _ _ _ _
            "tectonic_compile_defaults" (call_outcome run_no_output.2) []
            (run_eq run_no_output) _ _ _ _).
  - apply in_calls. vm_compute. left. reflexivity.
  - vm_compute. reflexivity.
  - vm_compute. reflexivity.
  - intros tmpDir Hin. vm_compute in Hin.
    repeat (destruct Hin as [Hin|Hin]; [try discriminate Hin|]);
      [|destruct Hin].
    injection Hin as <-. vm_compute. reflexivity.
Defined.

(** C3, as stated, fails: when the entry point itself returns 2, Compile
    returns a CompileError with IsPanic that wraps no cause. *)
Lemma engine_fault_code_without_cause :
  exists ce, run_code_two.1.1 = Err (ErrCompile ce)
             /\ IsPanic ce = true /\ Unwrap ce = None.
Proof.
  exists (mkCompileError 2 "panicked" None).
  split; [vm_compute; reflexivity|]. split; reflexivity.
Qed.

(** C3, amended.  A CompileError returned by Compile or GenerateFormat
    wraps exactly the error of the call of the entry point: when the call
    itself failed (a trap), the error has IsPanic and Unwrap gives that
    cause; when the call returned a code, also the code 2, Unwrap gives
    nil. *)
Theorem CompileError_cause :
  (forall c ctx tex opts s r s' tr ce,
     Compile c ctx tex opts s = (r, s', tr) ->
     r = Err (ErrCompile ce) ->
     exists out,
       calls tr = [("tectonic_compile_defaults", out)]
       /\ Unwrap ce = callErr out
       /\ (callErr out <> None -> IsPanic ce = true))
  /\ (forall c ctx dir s r s' tr ce,
     GenerateFormat c ctx dir s = (r, s', tr) ->
     r = Err (ErrCompile ce) ->
     exists out,
       calls tr = [("tectonic_generate_format", out)]
       /\ Unwrap ce = callErr out
       /\ (callErr out <> None -> IsPanic ce = true)).
Proof.
  split.
  - intros c ctx tex opts s r s' tr ce Hrun ->.
    destruct (Compile_inv _ _ _ _ _ _ _ _ Hrun)
      as [[_ Hn]|(tmpDir & out & _ & Hc & Hr)]; [by destruct (Hn ce)|].
    exists out. split; [done|]. revert Hr.
    unfold Compile_after_call, classify.
    destruct (callErr out) as [e|].
    + intros [= ->]. split; [done|reflexivity].
    + destruct (_ && _).
      * intros [= ->]. split; [done|]. intros H; by destruct H.
      * destruct (osfs.read _ _); discriminate.
  - intros c ctx dir s r s' tr ce Hrun ->.
    destruct (GenerateFormat_inv _ _ _ _ _ _ _ Hrun)
      as [[_ Hn]|(out & Hc & Hr)]; [by destruct (Hn ce)|].
    exists out. split; [done|]. revert Hr.
    unfold classify.
    destruct (callErr out) as [e|].
    + intros [= ->]. split; [done|reflexivity].
    + destruct (_ && _).
      * intros [= ->]. split; [done|]. intros H; by destruct H.
      * intros Hn. by destruct (Hn ce).
Qed.

Lemma CompileError_cause_witness :
  exists out,
    calls run_trap.2 = [("tectonic_compile_defaults", out)]
    /\ Unwrap (mkCompileError 2 "panicked"
                 (Some (ErrExternal "wasm error: unreachable")))
       = callErr out
    /\ (callErr out <> None ->
        IsPanic (mkCompileError 2 "panicked"
                   (Some (ErrExternal "wasm error: unreachable"))) = true).
Proof.
  refine (proj1 CompileError_cause _ _ _ _ _ _ _ _ _ (run_eq run_trap) _).
  vm_compute. reflexivity.
Defined.

(** ** Configuration errors *)

Lemma Compile_unresolved c ctx tex opts s :
  bundleDir (Compile_config c opts) = "" ->
  Compile c ctx tex opts s = (Err no_bundle_dir_error, s, []).
Proof.
  intros H. unfold Compile. fold (Compile_config c opts). rewrite H.
  reflexivity.
Qed.

Lemma apply_opts_keeps_empty (opts : list CompileOption) cfg :
  Forall (fun o : CompileOption =>
            forall cfg, bundleDir cfg = "" -> bundleDir (o cfg) = "") opts ->
  bundleDir cfg = "" -> bundleDir (apply_opts opts cfg) = "".
Proof.
  unfold apply_opts. intros H. revert cfg.
  induction H as [|o opts Ho _ IH]; intros cfg Hc; simpl; [done|].
  apply IH, Ho, Hc.
Qed.

(** C9.  When the compiler has no default bundle directory and no option
    of the call supplies one, Compile returns the configuration error;
    the trace of the run is empty (no working directory is created, no
    file written, no sandbox instance made) and the host is unchanged. *)
Theorem Compile_no_bundle_dir c ctx tex opts s :
  defaultBundleDir (config c) = "" ->
  Forall (fun o : CompileOption =>
            forall cfg, bundleDir cfg = "" -> bundleDir (o cfg) = "") opts ->
  Compile c ctx tex opts s = (Err no_bundle_dir_error, s, []).
Proof.
  intros Hd Ho. apply Compile_unresolved.
  unfold Compile_config. apply apply_opts_keeps_empty; done.
Qed.

Lemma Compile_no_bundle_dir_witness :
  Compile (demo_compiler (demo_function [0] None "" id) "")
          ctx_background [] [WithFontsDir "/fonts"; WithStderr 1] demo_os
  = (Err no_bundle_dir_error, demo_os, []).
Proof.
  apply Compile_no_bundle_dir.
  - reflexivity.
  - repeat constructor; intros cfg H; exact H.
Defined.

(** C10.  GenerateFormat with the empty string as bundle directory returns
    an error at once: the trace of the run is empty (no file-system
    access, no working directory, no sandbox) and the host is unchanged. *)
Theorem GenerateFormat_empty_bundle_dir c ctx s :
  GenerateFormat c ctx "" s =
    (Err (Errorf "tecgonic: no bundle directory specified" None), s, []).
Proof. reflexivity. Qed.

(** ** The format cache *)

Lemma GenerateFormat_present c ctx dir s :
  dir <> "" ->
  osfs.stat (fsys s) (filepath.Join dir "latex.fmt") = None ->
  GenerateFormat c ctx dir s =
    (Ok tt, s, [EvStat (filepath.Join dir "latex.fmt")]).
Proof.
  intros Hne Hst. unfold GenerateFormat.
  destruct (decide (dir = "")) as [|_]; [done|].
  unfold bind, os_Stat. rewrite Hst. reflexivity.
Qed.

(** After a successful GenerateFormat the format file is in the bundle
    directory, provided the bundle directory is not inside the working
    directory of the call, which is removed on return. *)
Lemma GenerateFormat_ok_artifact c ctx dir s s' tr :
  GenerateFormat c ctx dir s = (Ok tt, s', tr) ->
  (forall tmpDir, In (EvMkdirTemp "tecgonic-fmt-*" (Ok tmpDir)) tr ->
     under (filepath.Clean tmpDir)
           (filepath.Clean (filepath.Join dir "latex.fmt")) = false) ->
  osfs.stat (fsys s') (filepath.Join dir "latex.fmt") = None.
Proof.
  intros Hrun Hout. unfold GenerateFormat, GenerateFormat_copy in Hrun.
  run_inv; try assumption.
  all: match goal with
       | H : osfs.write _ _ _ = Ok _ |- _ => apply write_ok in H as [Hne ->]
       end.
  all: apply stat_present; [assumption|].
  all: rewrite remove_all_lookup
         by (apply Hout; cbn [app]; right; left; reflexivity).
  all: rewrite lookup_insert_eq; eauto.
Qed.

(** C5.  GenerateFormat is idempotent.  When latex.fmt exists in the
    bundle directory the call returns success and its trace is the one
    Stat of that file: no working directory is allocated, no sandbox
    instance made, no entry point called.  Hence a call that follows a
    successful call (whose working directory did not contain the bundle
    directory) does no sandbox work and returns success. *)
Theorem GenerateFormat_idempotent c ctx dir s :
  dir <> "" ->
  no_sandbox_work [EvStat (filepath.Join dir "latex.fmt")]
  /\ (osfs.stat (fsys s) (filepath.Join dir "latex.fmt") = None ->
      GenerateFormat c ctx dir s =
        (Ok tt, s, [EvStat (filepath.Join dir "latex.fmt")]))
  /\ (forall c0 ctx0 s0 tr0,
        GenerateFormat c0 ctx0 dir s0 = (Ok tt, s, tr0) ->
        (forall tmpDir, In (EvMkdirTemp "tecgonic-fmt-*" (Ok tmpDir)) tr0 ->
           under (filepath.Clean tmpDir)
                 (filepath.Clean (filepath.Join dir "latex.fmt")) = false) ->
        GenerateFormat c ctx dir s =
          (Ok tt, s, [EvStat (filepath.Join dir "latex.fmt")])).
Proof.
  intros Hne. split; [repeat constructor|]. split.
  - apply GenerateFormat_present, Hne.
  - intros c0 ctx0 s0 tr0 Hrun Hout.
    apply GenerateFormat_present; [exact Hne|].
    exact (GenerateFormat_ok_artifact _ _ _ _ _ _ Hrun Hout).
Qed.

Lemma GenerateFormat_idempotent_witness :
  GenerateFormat (demo_compiler (demo_function [2] None "" id) "/bundle")
                 ctx_background "/bundle" run_format_first.1.2
  = (Ok tt, run_format_first.1.2, [EvStat "/bundle/latex.fmt"]).
Proof.
  refine (proj2 (proj2 (GenerateFormat_idempotent _ _ "/bundle" _ _))
            (demo_compiler
               (demo_function [0] None ""
                  (fun fs =>
                     <["/tmp/tecgonic-fmt-0/cache/latex.fmt" := NFile [x25]]> fs))
               "/bundle")
            ctx_background demo_os run_format_first.2 _ _).
  - discriminate.
  - vm_compute. reflexivity.
  - intros tmpDir Hin. vm_compute in Hin.
    repeat (destruct Hin as [Hin|Hin]; [try discriminate Hin|]);
      [|destruct Hin].
    injection Hin as <-. vm_compute. reflexivity.
Defined.

(** ** The bundle *)

Ltac trace_cases H :=
  cbn [app In] in H;
  repeat (destruct H as [H|H]; [try discriminate H|]);
  try contradiction.

Ltac trace_split H :=
  rewrite ?in_app_iff in H; cbn [In] in H;
  repeat match type of H with
         | _ \/ _ => destruct H as [H|H]
         end;
  try discriminate H; try contradiction.

Section BundleProperties.

Variable http_NewRequestWithContext : Context -> string -> option error.
Variable http_Do : Context -> string -> result Response.
Variable gzip_NewReader : list byte -> result Reader.
Variable file_faults : FileFaults.

Ltac bundle_step :=
  match goal with
  | H : NewRequest _ _ _ _ = (_, _, _) |- _ => unfold NewRequest in H; triple H
  | H : DefaultClient_Do _ _ _ _ = (_, _, _) |- _ =>
      unfold DefaultClient_Do in H; triple H
  | H : gzip_open _ _ _ = (_, _, _) |- _ => unfold gzip_open in H; triple H
  | H : gzip_close _ _ = (_, _, _) |- _ => unfold gzip_close in H
  | H : writeFile _ _ _ _ = (_, _, _) |- _ => unfold writeFile in H
  | _ => run_step
  end.

Ltac bundle_inv := repeat bundle_step; cbn [fsys tmp_seq set_files] in *.

(** A regular-file entry is handed to [extract_entry]. *)
Lemma extract_loop_regular destDir cfg header payload es tail files :
  Typeflag header = TypeReg ->
  extract_loop gzip_NewReader file_faults destDir cfg
    ((header, payload) :: es) tail files
  = (_ <- emit EvTarNext ;;
     r <- extract_entry gzip_NewReader file_faults destDir cfg
            header payload files ;;
     match r with
     | Err err => ret (Err err)
     | Ok files =>
         extract_loop gzip_NewReader file_faults destDir cfg es tail files
     end)%go.
Proof. intros H. cbn [extract_loop]. rewrite H. reflexivity. Qed.

(** One entry: files stay files, what is copied is a file afterwards, the
    directory is not listed. *)
Lemma extract_entry_files destDir cfg h p files s r s' tr :
  extract_entry gzip_NewReader file_faults destDir cfg h p files s
  = (r, s', tr) ->
  (forall k, file_at (fsys s) k -> file_at (fsys s') k)
  /\ (forall q data, In (EvCopy q data) tr ->
        file_at (fsys s') (filepath.Clean q))
  /\ (forall d x, ~ In (EvReadDir d x) tr).
Proof.
  intros Hrun. unfold extract_entry in Hrun.
  bundle_inv.
  all: repeat match goal with
       | H : osfs.write _ _ _ = Ok _ |- _ => apply write_ok in H as [? ->]
       end.
  all: split; [intros k Hk; repeat apply file_at_insert; exact Hk|].
  all: split; [intros q data Hin; trace_cases Hin
              |intros d x Hin; trace_cases Hin].
  all: injection Hin as <- <-; eexists; apply lookup_insert_eq.
Qed.

(** The loop, by induction on the entries of the archive. *)
Lemma extract_loop_files destDir cfg es tail :
  forall files s r s' tr,
    extract_loop gzip_NewReader file_faults destDir cfg es tail files s
    = (r, s', tr) ->
    (forall k, file_at (fsys s) k -> file_at (fsys s') k)
    /\ (forall q data, In (EvCopy q data) tr ->
          file_at (fsys s') (filepath.Clean q))
    /\ (forall d x, ~ In (EvReadDir d x) tr)
    /\ In EvTarNext tr.
Proof.
  induction es as [|[h p] es IH]; intros files s r s' tr Hrun;
    cbn [extract_loop] in Hrun.
  - bundle_inv.
    all: split; [auto|]; split; [intros q data Hin; trace_cases Hin|];
      split; [intros d x Hin; trace_cases Hin|left; reflexivity].
  - apply bind_inv in Hrun as (? & s0 & t0 & t1 & He & Hrun & ->).
    unfold emit in He. injection He as <- <- <-.
    cbv beta in Hrun.
    destruct (negb _).
    + apply IH in Hrun as (Hk & Hc & Hd & Ht).
      split; [exact Hk|]. split; [|split; [|left; reflexivity]].
      * intros q data Hin; cbn [app In] in Hin.
        destruct Hin as [Hin|Hin]; [discriminate|eauto].
      * intros d x Hin; cbn [app In] in Hin.
        destruct Hin as [Hin|Hin]; [discriminate|]. by apply (Hd d x).
    + apply bind_inv in Hrun as (re & s1 & t2 & t3 & He & Hrun & ->).
      apply extract_entry_files in He as (Hk1 & Hc1 & Hd1).
      destruct re as [files'|err].
      * apply IH in Hrun as (Hk & Hc & Hd & Ht).
        split; [auto|]. split; [|split; [|left; reflexivity]].
        -- intros q data Hin; cbn [app In] in Hin.
           destruct Hin as [Hin|Hin]; [discriminate|].
           apply in_app_iff in Hin as [Hin|Hin];
             [apply Hk; eapply Hc1; exact Hin | eapply Hc; exact Hin].
        -- intros d x Hin; cbn [app In] in Hin.
           destruct Hin as [Hin|Hin]; [discriminate|].
           apply in_app_iff in Hin as [Hin|Hin];
             [by apply (Hd1 d x)|by apply (Hd d x)].
      * unfold ret in Hrun. injection Hrun as <- <- <-.
        split; [auto|]. split; [|split; [|left; reflexivity]].
        -- intros q data Hin; cbn [app In] in Hin.
           destruct Hin as [Hin|Hin]; [discriminate|].
           rewrite app_nil_r in Hin. eapply Hc1; exact Hin.
        -- intros d x Hin; cbn [app In] in Hin.
           destruct Hin as [Hin|Hin]; [discriminate|].
           rewrite app_nil_r in Hin. by apply (Hd1 d x).
Qed.

(** C6.  With force false and the marker SHA256SUM in the destination
    directory, PrepareBundle returns success, leaves the host as it is,
    and its trace is the one Stat of the marker: no network request and
    no write to the file system. *)
Theorem PrepareBundle_marker_present ctx destDir url opts s :
  osfs.stat (fsys s) (filepath.Join destDir "SHA256SUM") = None ->
  PrepareBundle http_NewRequestWithContext http_Do gzip_NewReader
    file_faults ctx destDir url false opts s
  = (Ok tt, s, [EvStat (filepath.Join destDir "SHA256SUM")])
  /\ Forall (fun ev => is_network ev = false /\ is_fs_write ev = false)
        [EvStat (filepath.Join destDir "SHA256SUM")].
Proof.
  intros Hst. split; [|repeat constructor].
  unfold PrepareBundle. cbv beta zeta.
  unfold bind at 1. unfold os_Stat. rewrite Hst. reflexivity.
Qed.

(** C7, amended.  When PrepareBundle performs the download and gets a
    response: if the status is not 200 the call fails with the HTTP error
    and the archive is not read; if the status is 200 the call goes on to
    read the archive. *)
Theorem PrepareBundle_status ctx destDir url force opts s r s' tr resp :
  PrepareBundle http_NewRequestWithContext http_Do gzip_NewReader
    file_faults ctx destDir url force opts s = (r, s', tr) ->
  In (EvHttpDo (bundle_url url)) tr ->
  http_Do ctx (bundle_url url) = Ok resp ->
  (StatusCode resp <> StatusOK ->
     r = Err (Errorf ("tecgonic: downloading bundle: HTTP "
                      +:+ itoa (StatusCode resp)) None)
     /\ ~ In EvTarNext tr)
  /\ (StatusCode resp = StatusOK -> In EvTarNext tr).
Proof.
  intros Hrun Hin Hdo. unfold PrepareBundle in Hrun.
  fold (bundle_url url) in Hrun.
  remember (bundle_url url) as u eqn:Hu. clear Hu.
  remember (apply_opts opts _) as cfg eqn:Hcfg in Hrun. clear Hcfg.
  bundle_inv.
  all: try (exfalso; trace_split Hin; fail).
  all: try congruence.
  all: match goal with
       | H : negb (_ =? _) = _ |- _ =>
           first [apply negb_true_iff, Z.eqb_neq in H
                 |apply negb_false_iff, Z.eqb_eq in H]
       end.
  all: split; intros Hs; try contradiction.
  all: try (split; [reflexivity|intros Ht; trace_split Ht]).
  all: match goal with
       | H : extract_loop _ _ _ _ _ _ _ _ = _ |- _ =>
           apply extract_loop_files in H as (_ & _ & _ & Ht)
       end.
  all: rewrite ?in_app_iff; tauto.
Qed.

(** C8.  When PrepareBundle lists the destination directory after the
    archive has ended and finds fewer than 100 entries, it returns the
    incomplete-extraction error, and every file written during the call
    is still a file of the host when the call returns. *)
Theorem PrepareBundle_incomplete ctx destDir url force opts s r s' tr d names :
  PrepareBundle http_NewRequestWithContext http_Do gzip_NewReader
    file_faults ctx destDir url force opts s = (r, s', tr) ->
  In (EvReadDir d (Ok names)) tr ->
  (length names < 100)%nat ->
  r = Err (Errorf ("tecgonic: bundle extraction incomplete: only "
                   +:+ itoa (Z.of_nat (length names))
                   +:+ " files extracted") None)
  /\ forall p data, In (EvCopy p data) tr ->
        file_at (fsys s') (filepath.Clean p).
Proof.
  intros Hrun Hin Hlen. unfold PrepareBundle in Hrun.
  remember (bundle_url url) as u eqn:Hu. unfold bundle_url in Hu.
  rewrite <- Hu in Hrun. clear Hu.
  remember (apply_opts opts _) as cfg eqn:Hcfg in Hrun. clear Hcfg.
  bundle_inv.
  all: try (exfalso; trace_split Hin; fail).
  all: match goal with
       | H : extract_loop _ _ _ _ _ _ _ _ = _ |- _ =>
           apply extract_loop_files in H as (_ & Hc & Hd & _)
       end.
  all: trace_split Hin; try (by destruct (Hd _ _ Hin)).
  all: injection Hin as <- <-.
  all: try match goal with
       | H : (_ <? 100) = false |- _ => exfalso; apply Z.ltb_ge in H; lia
       end.
  all: split; [reflexivity|].
  all: intros p data Hp; trace_split Hp; eapply Hc; exact Hp.
Qed.

End BundleProperties.

(** ** The bundle on the small host *)

Lemma PrepareBundle_marker_present_witness :
  PrepareBundle demo_request (demo_http 200) demo_gzip no_faults
    ctx_background "/bundle" "" false [] demo_os_marker
  = (Ok tt, demo_os_marker, [EvStat "/bundle/SHA256SUM"]).
Proof.
  assert (Hst : osfs.stat (fsys demo_os_marker)
                  (filepath.Join "/bundle" "SHA256SUM") = None)
    by (vm_compute; reflexivity).
  exact (proj1 (PrepareBundle_marker_present demo_request (demo_http 200)
                  demo_gzip no_faults ctx_background "/bundle" "" [] demo_os_marker
                  Hst)).
Defined.

(** C7, as stated, fails: 204 is a 2xx status, and with it the call
    fails and the archive is not read. *)
Lemma status_204_is_rejected :
  exists resp,
    demo_http 204 ctx_background (bundle_url "") = Ok resp
    /\ 200 <= StatusCode resp < 300
    /\ In (EvHttpDo (bundle_url "")) run_status_204.2
    /\ run_status_204.1.1
       = Err (Errorf "tecgonic: downloading bundle: HTTP 204" None)
    /\ ~ In EvTarNext run_status_204.2.
Proof.
  eexists. split; [reflexivity|]. split; [simpl; lia|].
  split; [vm_compute; tauto|]. split; [vm_compute; reflexivity|].
  intros H. vm_compute in H.
  repeat (destruct H as [H|H]; [discriminate H|]). destruct H.
Qed.

Lemma PrepareBundle_status_witness :
  run_status_204.1.1
  = Err (Errorf "tecgonic: downloading bundle: HTTP 204" None)
  /\ ~ In EvTarNext run_status_204.2.
Proof.
  assert (Hin : In (EvHttpDo (bundle_url "")) run_status_204.2)
    by (vm_compute; tauto).
  assert (Hne : StatusCode {| StatusCode := 204; ContentLength := 0;
                              Body := demo_tape |} <> StatusOK)
    by (vm_compute; discriminate).
  exact (proj1 (PrepareBundle_status demo_request (demo_http 204) demo_gzip
                  no_faults
                  ctx_background "/bundle" "" false [] demo_os _ _ _ _
                  (run_eq run_status_204) Hin eq_refl) Hne).
Defined.

Lemma PrepareBundle_incomplete_witness :
  run_two_files.1.1
  = Err (Errorf "tecgonic: bundle extraction incomplete: only 2 files extracted"
                None)
  /\ forall p data, In (EvCopy p data) run_two_files.2 ->
       file_at (fsys run_two_files.1.2) (filepath.Clean p).
Proof.
  assert (Hin : In (EvReadDir "/bundle" (Ok ["SHA256SUM"; "article.cls"]))
                   run_two_files.2)
    by (vm_compute; tauto).
  assert (Hlen : (length ["SHA256SUM"; "article.cls"] < 100)%nat)
    by (simpl; lia).
  exact (PrepareBundle_incomplete demo_request (demo_http 200) demo_gzip
           no_faults
           ctx_background "/bundle" "" false [] demo_os _ _ _ _ _
           (run_eq run_two_files) Hin Hlen).
Defined.

(** * Further properties of the code *)

(** ** What a compilation does to the host *)

Lemma in_writes p data tr :
  In (EvWriteFile p data) tr <-> In (p, data) (writes tr).
Proof.
  induction tr as [|ev tr IH]; simpl; [tauto|].
  destruct ev; simpl; rewrite <- ?IH;
    try (split; [intros [H|H]; [discriminate|auto] | auto]).
  split; intros [H|H]; auto; left; congruence.
Qed.

Lemma in_prints w text tr :
  In (EvFprintf w text) tr <-> In (w, text) (prints tr).
Proof.
  induction tr as [|ev tr IH]; simpl; [tauto|].
  destruct ev; simpl; rewrite <- ?IH;
    try (split; [intros [H|H]; [discriminate|auto] | auto]).
  split; intros [H|H]; auto; left; congruence.
Qed.

Lemma in_instantiated cfg tr :
  In (EvInstantiate cfg) tr <-> In cfg (instantiated tr).
Proof.
  induction tr as [|ev tr IH]; simpl; [tauto|].
  destruct ev; simpl; rewrite <- ?IH;
    try (split; [intros [H|H]; [discriminate|auto] | auto]).
  split; intros [H|H]; auto; left; congruence.
Qed.

Lemma in_mktemps pat r tr :
  In (EvMkdirTemp pat r) tr <-> In (pat, r) (mktemps tr).
Proof.
  induction tr as [|ev tr IH]; simpl; [tauto|].
  destruct ev; simpl; rewrite <- ?IH;
    try (split; [intros [H|H]; [discriminate|auto] | auto]).
  split; intros [H|H]; auto; left; congruence.
Qed.

Lemma writes_app t1 t2 : writes (t1 ++ t2) = writes t1 ++ writes t2.
Proof.
  induction t1 as [|ev t1 IH]; [reflexivity|].
  destruct ev; simpl; rewrite ?IH; reflexivity.
Qed.

Ltac project :=
  cbv beta iota delta [writes prints instantiated closes lookups calls
                       mktemps app last List.map snd fst take reverse
                       rev_append].

Ltac plan :=
  unfold sandbox_plan, Compile_fonts; rewrite_hyps;
  cbv [mc_fs mc_env mc_stdout mc_stderr WithEnv WithFSConfig WithStderrWriter
       WithStdout WithName NewModuleConfig WithDirMount WithReadOnlyDirMount
       NewFSConfig app rw_mount ro_mount];
  repeat split; try reflexivity; discriminate.

(** What a run of Compile does, read off its trace. *)
Lemma Compile_effects c ctx tex opts s r s' tr :
  Compile c ctx tex opts s = (r, s', tr) ->
  (tr = [] /\ s' = s)
  \/ (exists e, tr = [EvMkdirTemp "tecgonic-*" (Err e)])
  \/ exists tmpDir fs,
       (osfs.mkdir_temp (fsys s) "" "tecgonic-*" (tmp_seq s)).1.1 = Ok tmpDir
       /\ mktemps tr = [("tecgonic-*", Ok tmpDir)]
       /\ last tr = Some (EvRemoveAll tmpDir)
       /\ fsys s' = osfs.remove_all fs tmpDir
       /\ (writes tr = []
           \/ writes tr =
                [(filepath.Join (filepath.Join tmpDir "input") "input.tex", tex)])
       /\ Forall (sandbox_plan tmpDir (bundleDir (Compile_config c opts))
                    (Compile_fonts (Compile_config c opts) tmpDir))
                 (instantiated tr)
       /\ prints tr =
            match stderr (Compile_config c opts) with
            | Some w => List.map (fun no => (w, stderr_text (snd no))) (calls tr)
            | None => []
            end
       /\ (lookups tr = 0%nat
           \/ take 2 (reverse tr) = [EvRemoveAll tmpDir; EvModuleClose])
       /\ (calls tr = [] \/ lookups tr = 1%nat)
       /\ Forall (fun no =>
                    exists fn fs1,
                      snd no = Call fn ctx fs1
                      /\ fs1 !! filepath.Clean
                                 (filepath.Join (filepath.Join tmpDir "input")
                                                "input.tex")
                         = Some (NFile tex))
                 (calls tr).
Proof.
  intros Hrun. unfold Compile in Hrun. fold (Compile_config c opts) in Hrun.
  remember (Compile_config c opts) as cfg eqn:Hcfg in *. clear Hcfg.
  run_inv.
  all: try (left; split; reflexivity).
  all: try (right; left; eexists; reflexivity).
  all: right; right; eexists _, _; split; [reflexivity|].
  all: unfold captured in *; simpl mc_stderr in *.
  all: destruct (stderr cfg); project.
  all: split; [reflexivity|]; split; [reflexivity|]; split; [reflexivity|].
  all: split; [first [left; reflexivity | right; reflexivity]|].
  all: split; [repeat constructor; plan|].
  all: split; [reflexivity|].
  all: split; [first [left; reflexivity | right; reflexivity]|].
  all: split; [first [left; reflexivity | right; reflexivity]|].
  all: repeat constructor.
  all: eexists _, _; split; [reflexivity|].
  all: match goal with
       | H : osfs.write _ _ _ = Ok _ |- _ => apply write_ok in H as [_ ->]
       end; apply lookup_insert_eq.
Qed.

(** Temporary directories have a non-empty name, and [RemoveAll] of a
    non-empty path leaves nothing at or below it. *)
#[local] Transparent osfs.mkdir_temp osfs.remove_all filepath.Join
  filepath.Clean String.append.

Lemma Clean_nonempty p : filepath.Clean p <> "".
Proof.
  unfold filepath.Clean. destruct (filepath.rooted p); [discriminate|].
  destruct (decide _); [discriminate|assumption].
Qed.

Lemma Join_nonempty a b : a <> "" -> filepath.Join a b <> "".
Proof.
  intros Ha. unfold filepath.Join. destruct (decide (a = "")); [done|].
  apply Clean_nonempty.
Qed.

Lemma mkdir_temp_try_nonempty tries : forall fs dir pre suf seq a fs' seq',
  dir <> "" ->
  osfs.mkdir_temp_try tries fs dir pre suf seq = (Ok a, fs', seq') ->
  a <> "".
Proof.
  induction tries as [|tries IH]; intros fs dir pre suf seq a fs' seq' Hd;
    cbn [osfs.mkdir_temp_try]; [discriminate|].
  destruct (fs !! _); [apply IH, Hd|].
  destruct (osfs.mkdir fs _); [|discriminate].
  intros [= <- _ _]. apply Join_nonempty, Hd.
Qed.

Lemma mkdir_temp_nonempty fs dir pat seq a :
  (osfs.mkdir_temp fs dir pat seq).1.1 = Ok a -> a <> "".
Proof.
  unfold osfs.mkdir_temp. destruct (osfs.prefixAndSuffix pat) as [pre suf].
  destruct (osfs.mkdir_temp_try _ _ _ _ _ _) as [[r fs'] seq'] eqn:Htry.
  cbn [fst]. intros ->. eapply mkdir_temp_try_nonempty; [|exact Htry].
  destruct (decide (dir = "")); [discriminate|assumption].
Qed.

Lemma remove_all_under fs d k :
  d <> "" -> under (filepath.Clean d) k = true ->
  osfs.remove_all fs d !! k = None.
Proof.
  intros Hd Hu. unfold osfs.remove_all. destruct (decide (d = "")); [done|].
  apply map_lookup_filter_None. right. intros x _. cbn [fst].
  rewrite Hu. discriminate.
Qed.

#[local] Opaque osfs.mkdir_temp osfs.remove_all filepath.Join
  filepath.Clean String.append.

(** X1.  The working directory of a compilation does not outlive the call:
    whatever Compile returns, removing the temporary directory it
    allocated is the last thing it does, and afterwards the host has no
    file or directory at or below that path. *)
Theorem Compile_workdir_removed c ctx tex opts s r s' tr pat tmpDir :
  Compile c ctx tex opts s = (r, s', tr) ->
  In (EvMkdirTemp pat (Ok tmpDir)) tr ->
  last tr = Some (EvRemoveAll tmpDir)
  /\ forall k, under (filepath.Clean tmpDir) k = true -> fsys s' !! k = None.
Proof.
  intros Hrun Hin. apply in_mktemps in Hin.
  destruct (Compile_effects _ _ _ _ _ _ _ _ Hrun)
    as [[-> _]|[[e ->]|(t & fs & Ht & Hm & Hl & Hfs & _)]].
  - destruct Hin.
  - destruct Hin as [[=]|[]].
  - rewrite Hm in Hin. destruct Hin as [[= _ <-]|[]].
    split; [exact Hl|]. intros k Hk. rewrite Hfs.
    apply remove_all_under; [|exact Hk].
    eapply mkdir_temp_nonempty, Ht.
Qed.

(** X2.  The only file Compile writes itself is input.tex in the input
    directory of its working directory, and it holds the source bytes of
    the caller unchanged. *)
Theorem Compile_writes_only_source c ctx tex opts s r s' tr p data :
  Compile c ctx tex opts s = (r, s', tr) ->
  In (EvWriteFile p data) tr ->
  data = tex
  /\ exists tmpDir,
       In (EvMkdirTemp "tecgonic-*" (Ok tmpDir)) tr
       /\ p = filepath.Join (filepath.Join tmpDir "input") "input.tex".
Proof.
  intros Hrun Hin. apply in_writes in Hin.
  destruct (Compile_effects _ _ _ _ _ _ _ _ Hrun)
    as [[-> _]|[[e ->]|(t & fs & _ & Hm & _ & _ & Hw & _)]].
  - destruct Hin.
  - destruct Hin.
  - destruct Hw as [Hw|Hw]; rewrite Hw in Hin; [destruct Hin|].
    destruct Hin as [[= <- <-]|[]]. split; [reflexivity|].
    exists t. split; [|reflexivity]. apply in_mktemps. rewrite Hm. by left.
Qed.

(** X3.  When Compile calls the engine, the call is the one of its own
    sandbox instance on the host it prepared: the preparation of the
    working directory (lines 176-206) succeeded on the host the call
    started with, the function called is tectonic_compile_defaults as
    exported by the module that the runtime of the compiler instantiated
    on the host files so prepared, the call runs on those files, they
    contain input.tex with exactly the source bytes, and the host Compile
    leaves is what the call left, without the working directory. *)
Theorem Compile_engine_sees_source c ctx tex opts s r s' tr name out :
  Compile c ctx tex opts s = (r, s', tr) ->
  In (EvCall name out) tr ->
  exists tmpDir fs m md fn,
    Compile_host (Compile_config c opts) tex s = Some (tmpDir, fs)
    /\ mktemps tr = [("tecgonic-*", Ok tmpDir)]
    /\ instantiated tr = [m]
    /\ InstantiateModule (runtime c) ctx (compiled c) m fs = Ok md
    /\ name = "tectonic_compile_defaults"
    /\ ExportedFunction md name = Some fn
    /\ out = Call fn ctx fs
    /\ fs !! filepath.Clean
               (filepath.Join (filepath.Join tmpDir "input") "input.tex")
       = Some (NFile tex)
    /\ fsys s' = osfs.remove_all (files_after out) tmpDir.
Proof.
  intros Hrun Hin. apply in_calls in Hin.
  unfold Compile in Hrun. fold (Compile_config c opts) in Hrun.
  remember (Compile_config c opts) as cfg eqn:Hcfg in *. clear Hcfg.
  run_inv.
  all: unfold captured in *; simpl mc_stderr in *.
  all: destruct (stderr cfg); cbv beta iota delta [calls app] in Hin.
  all: try (destruct Hin; fail).
  all: destruct Hin as [[= <- <-]|[]].
  all: eexists _, _, _, _, _; unfold Compile_host;
    repeat (rewrite_hyps; cbv beta iota).
  all: split; [reflexivity|].
  all: split; [project; reflexivity|].
  all: split; [project; reflexivity|].
  all: split; [eassumption|].
  all: split; [reflexivity|].
  all: split; [eassumption|].
  all: split; [reflexivity|].
  all: split; [|reflexivity].
  all: match goal with
       | H : osfs.write _ _ _ = Ok _ |- _ => apply write_ok in H as [_ ->]
       end; apply lookup_insert_eq.
Qed.

(** X4.  Without WithStderr, Compile prints nothing to any writer of the
    caller.  With WithStderr(w), what it prints is exactly the error
    stream of the engine call, to [w]. *)
Theorem Compile_stderr_tee c ctx tex opts s r s' tr :
  Compile c ctx tex opts s = (r, s', tr) ->
  match stderr (Compile_config c opts) with
  | None => forall w text, ~ In (EvFprintf w text) tr
  | Some w =>
      forall w' text,
        In (EvFprintf w' text) tr <->
        w' = w /\ exists name out,
                    In (EvCall name out) tr /\ text = stderr_text out
  end.
Proof.
  intros Hrun.
  destruct (Compile_effects _ _ _ _ _ _ _ _ Hrun)
    as [[-> _]|[[e ->]|(t & fs & _ & _ & _ & _ & _ & _ & Hp & _)]].
  - destruct (stderr _) as [w|]; [|intros w text []].
    intros w' text. split; [intros []|intros (_ & nm & o & [] & _)].
  - destruct (stderr _) as [w|].
    + intros w' text. split; [intros [[=]|[]]|].
      intros (_ & nm & o & [[=]|[]] & _).
    + intros w text [[=]|[]].
  - destruct (stderr _) as [w|].
    + intros w' text. rewrite in_prints, Hp, in_map_iff. split.
      * intros ([nm o] & [= <- <-] & Hin). split; [reflexivity|].
        exists nm, o. split; [by apply in_calls|reflexivity].
      * intros (-> & nm & o & Hin & ->). exists (nm, o).
        split; [reflexivity|by apply in_calls].
    + intros w text Hin. apply in_prints in Hin. rewrite Hp in Hin.
      destruct Hin.
Qed.

(** X5.  After the engine was called, the last two actions of Compile
    are closing the module instance and then removing the working
    directory, whatever the call returned. *)
Theorem Compile_cleanup_after_call c ctx tex opts s r s' tr name out :
  Compile c ctx tex opts s = (r, s', tr) ->
  In (EvCall name out) tr ->
  exists tmpDir,
    In (EvMkdirTemp "tecgonic-*" (Ok tmpDir)) tr
    /\ take 2 (reverse tr) = [EvRemoveAll tmpDir; EvModuleClose].
Proof.
  intros Hrun Hin. apply in_calls in Hin.
  destruct (Compile_effects _ _ _ _ _ _ _ _ Hrun)
    as [[-> _]|[[e ->]|(t & fs & _ & Hm & _ & _ & _ & _ & _ & Hl & Hc & _)]].
  - destruct Hin.
  - destruct Hin.
  - exists t. split; [apply in_mktemps; rewrite Hm; by left|].
    destruct Hc as [Hc|Hc]; [rewrite Hc in Hin; destruct Hin|].
    destruct Hl as [Hl|Hl]; [congruence|exact Hl].
Qed.

Lemma Compile_workdir_removed_witness :
  last run_tex_error.2 = Some (EvRemoveAll "/tmp/tecgonic-0")
  /\ forall k, under (filepath.Clean "/tmp/tecgonic-0") k = true ->
       fsys run_tex_error.1.2 !! k = None.
Proof.
  assert (Hin : In (EvMkdirTemp "tecgonic-*" (Ok "/tmp/tecgonic-0"))
                   run_tex_error.2) by (vm_compute; tauto).
  exact (Compile_workdir_removed _ _ _ _ _ _ _ _ _ _
           (run_eq run_tex_error) Hin).
Defined.

Lemma Compile_writes_only_source_witness :
  [x5c; x62; x79; x65] = [x5c; x62; x79; x65]
  /\ exists tmpDir,
       In (EvMkdirTemp "tecgonic-*" (Ok tmpDir)) run_tee.2
       /\ "/tmp/tecgonic-0/input/input.tex"
          = filepath.Join (filepath.Join tmpDir "input") "input.tex".
Proof.
  assert (Hin : In (EvWriteFile "/tmp/tecgonic-0/input/input.tex"
                      [x5c; x62; x79; x65]) run_tee.2)
    by (vm_compute; tauto).
  exact (Compile_writes_only_source _ _ _ _ _ _ _ _ _ _
           (run_eq run_tee) Hin).
Defined.

Lemma Compile_engine_sees_source_witness :
  exists tmpDir fs m md fn,
    Compile_host
      (Compile_config
         (demo_compiler
            (demo_function [1] None "! Undefined control sequence." id)
            "/bundle")
         [WithStderr 7]) [x5c; x62; x79; x65] demo_os
    = Some (tmpDir, fs)
    /\ mktemps run_tee.2 = [("tecgonic-*", Ok tmpDir)]
    /\ instantiated run_tee.2 = [m]
    /\ InstantiateModule
         (runtime
            (demo_compiler
               (demo_function [1] None "! Undefined control sequence." id)
               "/bundle"))
         ctx_background
         (compiled
            (demo_compiler
               (demo_function [1] None "! Undefined control sequence." id)
               "/bundle")) m fs = Ok md
    /\ "tectonic_compile_defaults" = "tectonic_compile_defaults"
    /\ ExportedFunction md "tectonic_compile_defaults" = Some fn
    /\ call_outcome run_tee.2 = Call fn ctx_background fs
    /\ fs !! filepath.Clean
               (filepath.Join (filepath.Join tmpDir "input") "input.tex")
       = Some (NFile [x5c; x62; x79; x65])
    /\ fsys run_tee.1.2 = osfs.remove_all (files_after (call_outcome run_tee.2))
                            tmpDir.
Proof.
  assert (Hin : In (EvCall "tectonic_compile_defaults"
                      (call_outcome run_tee.2)) run_tee.2)
    by (apply in_calls; vm_compute; left; reflexivity).
  exact (Compile_engine_sees_source _ _ _ _ _ _ _ _ _ _
           (run_eq run_tee) Hin).
Defined.

Lemma Compile_stderr_tee_witness :
  In (EvFprintf 7 "! Undefined control sequence.") run_tee.2 <->
  7%nat = 7%nat
  /\ exists name out,
       In (EvCall name out) run_tee.2
       /\ "! Undefined control sequence." = stderr_text out.
Proof.
  exact (Compile_stderr_tee _ _ _ _ _ _ _ _ (run_eq run_tee)
           7%nat "! Undefined control sequence.").
Defined.

Lemma Compile_cleanup_after_call_witness :
  exists tmpDir,
    In (EvMkdirTemp "tecgonic-*" (Ok tmpDir)) run_trap.2
    /\ take 2 (reverse run_trap.2) = [EvRemoveAll tmpDir; EvModuleClose].
Proof.
  assert (Hin : In (EvCall "tectonic_compile_defaults"
                      (call_outcome run_trap.2)) run_trap.2)
    by (apply in_calls; vm_compute; left; reflexivity).
  exact (Compile_cleanup_after_call _ _ _ _ _ _ _ _ _ _
           (run_eq run_trap) Hin).
Defined.

(** ** What format generation does to the host *)

Lemma calls_app t1 t2 : calls (t1 ++ t2) = calls t1 ++ calls t2.
Proof.
  induction t1 as [|ev t1 IH]; [reflexivity|].
  destruct ev; simpl; rewrite ?IH; reflexivity.
Qed.

Lemma instantiated_app t1 t2 :
  instantiated (t1 ++ t2) = instantiated t1 ++ instantiated t2.
Proof.
  induction t1 as [|ev t1 IH]; [reflexivity|].
  destruct ev; simpl; rewrite ?IH; reflexivity.
Qed.

Lemma mktemps_app t1 t2 : mktemps (t1 ++ t2) = mktemps t1 ++ mktemps t2.
Proof.
  induction t1 as [|ev t1 IH]; [reflexivity|].
  destruct ev; simpl; rewrite ?IH; reflexivity.
Qed.

(** The copy of the format file, as a function of the host files. *)
Lemma GenerateFormat_copy_spec dir cacheDir text s r s1 t1 :
  GenerateFormat_copy dir cacheDir text s = (r, s1, t1) ->
  calls t1 = [] /\ instantiated t1 = [] /\ mktemps t1 = []
  /\ prints t1 = []
  /\ match found_format_file (fsys s) cacheDir with
     | None => r = Err (no_format_error text) /\ writes t1 = [] /\ s1 = s
     | Some p =>
         match osfs.read (fsys s) p with
         | Err e => (exists e', r = Err e') /\ writes t1 = [] /\ s1 = s
         | Ok data =>
             writes t1 = [(filepath.Join dir "latex.fmt", data)]
             /\ match osfs.write (fsys s) (filepath.Join dir "latex.fmt")
                        data with
                | Ok fs' => r = Ok tt /\ fsys s1 = fs'
                | Err e => (exists e', r = Err e') /\ s1 = s
                end
         end
     end.
Proof.
  intros Hrun. unfold GenerateFormat_copy in Hrun. unfold found_format_file.
  run_inv.
  all: split; [reflexivity|]; split; [reflexivity|]; split; [reflexivity|].
  all: split; [reflexivity|].
  all: rewrite_hyps; cbn [writes app].
  all: repeat split; eauto.
Qed.

Lemma prints_app t1 t2 : prints (t1 ++ t2) = prints t1 ++ prints t2.
Proof.
  induction t1 as [|ev t1 IH]; [reflexivity|].
  destruct ev; simpl; rewrite ?IH; reflexivity.
Qed.

Ltac project_app :=
  rewrite ?writes_app, ?calls_app, ?instantiated_app, ?mktemps_app,
    ?prints_app;
  cbn [writes prints instantiated calls mktemps app].

(** What a run of GenerateFormat does, read off its trace. *)
Lemma GenerateFormat_effects c ctx dir s r s' tr :
  GenerateFormat c ctx dir s = (r, s', tr) ->
  (tr = [] /\ s' = s)
  \/ (tr = [EvStat (filepath.Join dir "latex.fmt")] /\ s' = s)
  \/ (exists e, tr = [EvStat (filepath.Join dir "latex.fmt");
                      EvMkdirTemp "tecgonic-fmt-*" (Err e)])
  \/ exists tmpDir fs,
       (osfs.mkdir_temp (fsys s) "" "tecgonic-fmt-*" (tmp_seq s)).1.1
       = Ok tmpDir
       /\ mktemps tr = [("tecgonic-fmt-*", Ok tmpDir)]
       /\ fsys s' = osfs.remove_all fs tmpDir
       /\ last tr = Some (EvRemoveAll tmpDir)
       /\ Forall (sandbox_plan tmpDir dir (filepath.Join tmpDir "fonts"))
                 (instantiated tr)
       /\ prints tr = []
       /\ ((calls tr = [] /\ writes tr = [])
           \/ exists out,
                calls tr = [("tectonic_generate_format", out)]
                /\ match classify out with
                   | Some ce => r = Err (ErrCompile ce) /\ writes tr = []
                   | None =>
                       exists s0 s1 t1,
                         fsys s0 = files_after out
                         /\ GenerateFormat_copy dir
                              (filepath.Join tmpDir "cache")
                              (stderr_text out) s0 = (r, s1, t1)
                         /\ writes tr = writes t1
                         /\ fs = fsys s1
                   end).
Proof.
  intros Hrun. unfold GenerateFormat in Hrun.
  run_inv.
  all: try (left; split; reflexivity).
  all: try (right; left; split; reflexivity).
  all: try (right; right; left; eexists; reflexivity).
  all: right; right; right; eexists _, _; split; [reflexivity|].
  all: unfold captured in *; simpl mc_stderr in *.
  all: rewrite !last_app; cbn [last].
  all: try match goal with
           | H : GenerateFormat_copy _ _ _ _ = _ |- _ =>
               pose proof (GenerateFormat_copy_spec _ _ _ _ _ _ _ H)
                 as (Hc & Hi & Hm & Hp & _)
           end.
  all: project_app; rewrite ?Hc, ?Hi, ?Hm, ?Hp; cbn [app].
  all: split; [reflexivity|]; split; [reflexivity|]; split; [reflexivity|].
  all: split; [repeat constructor; plan|].
  all: split; [reflexivity|].
  all: try (left; split; reflexivity).
  all: right; eexists; split; [reflexivity|].
  all: unfold classify; rewrite_hyps; try (split; reflexivity).
  all: eexists _, _, _; split; [|split; [eassumption|]].
  all: try reflexivity.
  all: split; [rewrite ?app_nil_r; reflexivity | reflexivity].
Qed.

(** X6.  Every sandbox instance of Compile gets the same mount plan: the
    input, output and cache directories of its own working directory and
    the fonts directory read-write, the bundle directory of the resolved
    configuration as the only read-only mount, standard output discarded
    and the error stream captured.  The fonts directory is the one of the
    caller when WithFontsDir or WithDefaultFontsDir named one, and it is
    then mounted read-write as well. *)
Theorem Compile_sandbox_plan c ctx tex opts s r s' tr m :
  Compile c ctx tex opts s = (r, s', tr) ->
  In (EvInstantiate m) tr ->
  exists tmpDir,
    In (EvMkdirTemp "tecgonic-*" (Ok tmpDir)) tr
    /\ sandbox_plan tmpDir (bundleDir (Compile_config c opts))
         (Compile_fonts (Compile_config c opts) tmpDir) m.
Proof.
  intros Hrun Hin. apply in_instantiated in Hin.
  destruct (Compile_effects _ _ _ _ _ _ _ _ Hrun)
    as [[-> _]|[[e ->]|(t & fs & _ & Hm & _ & _ & _ & Hp & _)]].
  - destruct Hin.
  - destruct Hin.
  - exists t. split; [apply in_mktemps; rewrite Hm; by left|].
    rewrite Forall_forall in Hp. apply Hp, list_elem_of_In, Hin.
Qed.

(** X7.  GenerateFormat runs the engine under the same plan: the bundle
    directory it is about to write latex.fmt into is mounted read-only
    for the engine, and all writable mounts are inside its own working
    directory. *)
Theorem GenerateFormat_sandbox_plan c ctx dir s r s' tr m :
  GenerateFormat c ctx dir s = (r, s', tr) ->
  In (EvInstantiate m) tr ->
  exists tmpDir,
    In (EvMkdirTemp "tecgonic-fmt-*" (Ok tmpDir)) tr
    /\ sandbox_plan tmpDir dir (filepath.Join tmpDir "fonts") m.
Proof.
  intros Hrun Hin. apply in_instantiated in Hin.
  destruct (GenerateFormat_effects _ _ _ _ _ _ _ Hrun)
    as [[-> _]|[[-> _]|[[e ->]|(t & fs & _ & Hm & _ & _ & Hp & _)]]].
  - destruct Hin.
  - destruct Hin.
  - destruct Hin.
  - exists t. split; [apply in_mktemps; rewrite Hm; by left|].
    rewrite Forall_forall in Hp. apply Hp, list_elem_of_In, Hin.
Qed.

(** X8.  GenerateFormat removes its working directory on every path:
    the removal is its last action, and afterwards the host has no file or
    directory at or below that path. *)
Theorem GenerateFormat_workdir_removed c ctx dir s r s' tr pat tmpDir :
  GenerateFormat c ctx dir s = (r, s', tr) ->
  In (EvMkdirTemp pat (Ok tmpDir)) tr ->
  last tr = Some (EvRemoveAll tmpDir)
  /\ forall k, under (filepath.Clean tmpDir) k = true -> fsys s' !! k = None.
Proof.
  intros Hrun Hin. apply in_mktemps in Hin.
  destruct (GenerateFormat_effects _ _ _ _ _ _ _ Hrun)
    as [[-> _]|[[-> _]|[[e ->]|(t & fs & Ht & Hm & Hfs & Hl & _)]]].
  - destruct Hin.
  - destruct Hin.
  - destruct Hin as [[=]|[]].
  - rewrite Hm in Hin. destruct Hin as [[= _ <-]|[]].
    split; [exact Hl|]. intros k Hk. rewrite Hfs.
    apply remove_all_under; [|exact Hk].
    eapply mkdir_temp_nonempty, Ht.
Qed.

(** One engine call, as the effects of GenerateFormat describe it. *)
Lemma GenerateFormat_call c ctx dir s r s' tr name out :
  GenerateFormat c ctx dir s = (r, s', tr) ->
  In (EvCall name out) tr ->
  exists tmpDir fs,
    (osfs.mkdir_temp (fsys s) "" "tecgonic-fmt-*" (tmp_seq s)).1.1 = Ok tmpDir
    /\ mktemps tr = [("tecgonic-fmt-*", Ok tmpDir)]
    /\ fsys s' = osfs.remove_all fs tmpDir
    /\ calls tr = [("tectonic_generate_format", out)]
    /\ match classify out with
       | Some ce => r = Err (ErrCompile ce) /\ writes tr = []
       | None =>
           match found_format_file (files_after out)
                   (filepath.Join tmpDir "cache") with
           | None =>
               r = Err (no_format_error (stderr_text out)) /\ writes tr = []
           | Some p =>
               match osfs.read (files_after out) p with
               | Err e => (exists e', r = Err e') /\ writes tr = []
               | Ok data =>
                   writes tr = [(filepath.Join dir "latex.fmt", data)]
                   /\ match osfs.write (files_after out)
                              (filepath.Join dir "latex.fmt") data with
                      | Ok fs' => r = Ok tt /\ fs = fs'
                      | Err e => exists e', r = Err e'
                      end
               end
           end
       end.
Proof.
  intros Hrun Hin. apply in_calls in Hin.
  destruct (GenerateFormat_effects _ _ _ _ _ _ _ Hrun)
    as [[-> _]|[[-> _]|[[e ->]|(t & fs & Ht & Hm & Hfs & _ & _ & _ & Hc)]]];
    try solve [destruct Hin].
  destruct Hc as [[Hc _]|(out' & Hc & Hr)]; rewrite Hc in Hin;
    [destruct Hin|].
  destruct Hin as [[= <- <-]|[]].
  exists t, fs. do 4 (split; [assumption|]).
  destruct (classify out'); [exact Hr|].
  destruct Hr as (s0 & s1 & t1 & Hs0 & Hcopy & Hw & ->).
  apply GenerateFormat_copy_spec in Hcopy as (_ & _ & _ & _ & Hcopy).
  rewrite Hs0 in Hcopy. rewrite Hw.
  destruct (found_format_file _ _); [|tauto].
  destruct (osfs.read _ _); [|tauto].
  destruct Hcopy as [Hw' Hcopy]. split; [exact Hw'|].
  destruct (osfs.write _ _ _); [|tauto].
  destruct Hcopy as [-> <-]. auto.
Qed.

(** X9.  When GenerateFormat ran the engine and returned nil, latex.fmt
    of the bundle directory holds the bytes of the format file the engine
    left in the cache directory: cache/latex.fmt when it is there,
    otherwise the first entry of the cache directory, in name order, whose
    extension is .fmt. *)
Theorem GenerateFormat_installs_format c ctx dir s s' tr name out :
  GenerateFormat c ctx dir s = (Ok tt, s', tr) ->
  In (EvCall name out) tr ->
  exists tmpDir p data,
    In (EvMkdirTemp "tecgonic-fmt-*" (Ok tmpDir)) tr
    /\ found_format_file (files_after out) (filepath.Join tmpDir "cache")
       = Some p
    /\ osfs.read (files_after out) p = Ok data
    /\ (under (filepath.Clean tmpDir)
              (filepath.Clean (filepath.Join dir "latex.fmt")) = false ->
        fsys s' !! filepath.Clean (filepath.Join dir "latex.fmt")
        = Some (NFile data)).
Proof.
  intros Hrun Hin.
  destruct (GenerateFormat_call _ _ _ _ _ _ _ _ _ Hrun Hin)
    as (t & fs & _ & Hm & Hfs & _ & Hr).
  destruct (classify out); [destruct Hr as [[=] _]|].
  destruct (found_format_file _ _) as [p|] eqn:Hp; [|destruct Hr as [[=] _]].
  destruct (osfs.read _ p) as [data|e] eqn:Hd; [|destruct Hr as [[e' [=]] _]].
  destruct Hr as [_ Hr].
  destruct (osfs.write _ _ data) as [fs'|e] eqn:Hw; [|destruct Hr as [e' [=]]].
  destruct Hr as [_ ->]. apply write_ok in Hw as [_ ->].
  exists t, p, data. split; [apply in_mktemps; rewrite Hm; by left|].
  do 2 (split; [assumption|]). intros Hu.
  rewrite Hfs, remove_all_lookup by exact Hu. apply lookup_insert_eq.
Qed.

(** X10.  The only file GenerateFormat writes itself is latex.fmt of
    the bundle directory, only after the engine returned 0 without a
    fault, and only with bytes read from a format file of the cache
    directory. *)
Theorem GenerateFormat_writes_only_format c ctx dir s r s' tr p data :
  GenerateFormat c ctx dir s = (r, s', tr) ->
  In (EvWriteFile p data) tr ->
  p = filepath.Join dir "latex.fmt"
  /\ exists out tmpDir src,
       In (EvCall "tectonic_generate_format" out) tr
       /\ classify out = None
       /\ In (EvMkdirTemp "tecgonic-fmt-*" (Ok tmpDir)) tr
       /\ found_format_file (files_after out) (filepath.Join tmpDir "cache")
          = Some src
       /\ osfs.read (files_after out) src = Ok data.
Proof.
  intros Hrun Hin. apply in_writes in Hin.
  destruct (GenerateFormat_effects _ _ _ _ _ _ _ Hrun)
    as [[-> _]|[[-> _]|[[e ->]|(t & fs & _ & _ & _ & _ & _ & _ & Hc)]]];
    try solve [destruct Hin].
  destruct Hc as [[_ Hw]|(out & Hc & _)]; [rewrite Hw in Hin; destruct Hin|].
  assert (Hcall : In (EvCall "tectonic_generate_format" out) tr)
    by (apply in_calls; rewrite Hc; by left).
  destruct (GenerateFormat_call _ _ _ _ _ _ _ _ _ Hrun Hcall)
    as (t' & fs' & _ & Hm & _ & _ & Hr).
  destruct (classify out) eqn:Hcl;
    [destruct Hr as [_ Hw]; rewrite Hw in Hin; destruct Hin|].
  destruct (found_format_file _ _) as [src|] eqn:Hsrc;
    [|destruct Hr as [_ Hw]; rewrite Hw in Hin; destruct Hin].
  destruct (osfs.read _ src) as [d|e] eqn:Hrd;
    [|destruct Hr as [_ Hw]; rewrite Hw in Hin; destruct Hin].
  destruct Hr as [Hw _]. rewrite Hw in Hin. destruct Hin as [[= <- <-]|[]].
  split; [reflexivity|]. exists out, t', src.
  split; [exact Hcall|]. split; [exact Hcl|].
  split; [apply in_mktemps; rewrite Hm; by left|]. auto.
Qed.

(** X11.  When the engine returned 0 but left neither cache/latex.fmt
    nor any other file with extension .fmt in the cache directory,
    GenerateFormat writes nothing and returns the error that no format
    file was generated, with the error stream of the engine in its
    text. *)
Theorem GenerateFormat_no_format_file c ctx dir s r s' tr name out pat tmpDir :
  GenerateFormat c ctx dir s = (r, s', tr) ->
  In (EvCall name out) tr ->
  In (EvMkdirTemp pat (Ok tmpDir)) tr ->
  classify out = None ->
  found_format_file (files_after out) (filepath.Join tmpDir "cache") = None ->
  r = Err (no_format_error (stderr_text out))
  /\ forall p data, ~ In (EvWriteFile p data) tr.
Proof.
  intros Hrun Hin Htmp Hcl Hnone. apply in_mktemps in Htmp.
  destruct (GenerateFormat_call _ _ _ _ _ _ _ _ _ Hrun Hin)
    as (t & fs & _ & Hm & _ & _ & Hr).
  rewrite Hm in Htmp. destruct Htmp as [[= _ <-]|[]].
  rewrite Hcl, Hnone in Hr. destruct Hr as [-> Hw].
  split; [reflexivity|]. intros p data Hp. apply in_writes in Hp.
  rewrite Hw in Hp. destruct Hp.
Qed.

(** X12.  When the runtime refuses to instantiate the module (a cancelled
    context, a closed runtime), Compile returns an error, never a result:
    once it got as far as instantiating, the error wraps the error of the
    runtime.  No exported function is looked up or called and no module
    is closed. *)
Theorem Compile_instantiate_failure c ctx tex opts s r s' tr e0 :
  Compile c ctx tex opts s = (r, s', tr) ->
  (forall cfg fs, InstantiateModule (runtime c) ctx (compiled c) cfg fs
                  = Err e0) ->
  calls tr = [] /\ lookups tr = 0%nat /\ closes tr = 0%nat
  /\ exists e, r = Err e
       /\ (instantiated tr <> [] ->
           e = Errorf ("tecgonic: instantiating module: " +:+ Error e0)
                      (Some e0)).
Proof.
  intros Hrun Hfail. unfold Compile in Hrun.
  remember (apply_opts opts _) as cfg eqn:Hcfg in Hrun. clear Hcfg.
  run_inv.
  all: try match goal with
           | H : InstantiateModule _ _ _ _ _ = Ok _ |- _ =>
               rewrite Hfail in H; discriminate H
           end.
  all: project; do 3 (split; [reflexivity|]); eexists; split; [reflexivity|].
  all: try (intros Hne; exfalso; apply Hne; reflexivity).
  all: intros _; match goal with
                 | H : InstantiateModule _ _ _ _ _ = Err _ |- _ =>
                     rewrite Hfail in H; injection H as <-
                 end; reflexivity.
Qed.

Lemma GenerateFormat_sandbox_plan_witness :
  exists tmpDir,
    In (EvMkdirTemp "tecgonic-fmt-*" (Ok tmpDir)) run_format_first.2
    /\ sandbox_plan tmpDir "/bundle" (filepath.Join tmpDir "fonts")
         (hd NewModuleConfig (instantiated run_format_first.2)).
Proof.
  assert (Hin : In (EvInstantiate
                      (hd NewModuleConfig (instantiated run_format_first.2)))
                   run_format_first.2)
    by (apply in_instantiated; vm_compute; left; reflexivity).
  exact (GenerateFormat_sandbox_plan _ _ _ _ _ _ _ _
           (run_eq run_format_first) Hin).
Defined.

Lemma Compile_sandbox_plan_witness :
  exists tmpDir,
    In (EvMkdirTemp "tecgonic-*" (Ok tmpDir)) run_tee.2
    /\ sandbox_plan tmpDir
         (bundleDir (Compile_config
                       (demo_compiler
                          (demo_function [1] None
                             "! Undefined control sequence." id) "/bundle")
                       [WithStderr 7]))
         (Compile_fonts (Compile_config
                       (demo_compiler
                          (demo_function [1] None
                             "! Undefined control sequence." id) "/bundle")
                       [WithStderr 7]) tmpDir)
         (hd NewModuleConfig (instantiated run_tee.2)).
Proof.
  assert (Hin : In (EvInstantiate
                      (hd NewModuleConfig (instantiated run_tee.2)))
                   run_tee.2)
    by (apply in_instantiated; vm_compute; left; reflexivity).
  exact (Compile_sandbox_plan _ _ _ _ _ _ _ _ _
           (run_eq run_tee) Hin).
Defined.

Lemma GenerateFormat_workdir_removed_witness :
  last run_format_first.2 = Some (EvRemoveAll "/tmp/tecgonic-fmt-0")
  /\ forall k, under (filepath.Clean "/tmp/tecgonic-fmt-0") k = true ->
       fsys run_format_first.1.2 !! k = None.
Proof.
  assert (Hin : In (EvMkdirTemp "tecgonic-fmt-*" (Ok "/tmp/tecgonic-fmt-0"))
                   run_format_first.2) by (apply in_mktemps; vm_compute; left; reflexivity).
  exact (GenerateFormat_workdir_removed _ _ _ _ _ _ _ _ _
           (run_eq run_format_first) Hin).
Defined.

Lemma run_format_first_ok : run_format_first.1.1 = Ok tt.
Proof. vm_compute. reflexivity. Qed.

Lemma GenerateFormat_installs_format_witness :
  exists tmpDir p data,
    In (EvMkdirTemp "tecgonic-fmt-*" (Ok tmpDir)) run_format_first.2
    /\ found_format_file (files_after (call_outcome run_format_first.2))
         (filepath.Join tmpDir "cache") = Some p
    /\ osfs.read (files_after (call_outcome run_format_first.2)) p = Ok data
    /\ (under (filepath.Clean tmpDir)
              (filepath.Clean (filepath.Join "/bundle" "latex.fmt")) = false ->
        fsys run_format_first.1.2
          !! filepath.Clean (filepath.Join "/bundle" "latex.fmt")
        = Some (NFile data)).
Proof.
  assert (Hin : In (EvCall "tectonic_generate_format"
                      (call_outcome run_format_first.2)) run_format_first.2)
    by (apply in_calls; vm_compute; left; reflexivity).
  assert (Hrun : GenerateFormat
    (demo_compiler
       (demo_function [0] None ""
          (fun fs => <["/tmp/tecgonic-fmt-0/cache/latex.fmt" := NFile [x25]]> fs))
       "/bundle")
    ctx_background "/bundle" demo_os
    = (Ok tt, run_format_first.1.2, run_format_first.2)).
  { rewrite <- run_format_first_ok. exact (run_eq run_format_first). }
  exact (GenerateFormat_installs_format _ _ _ _ _ _ _ _ Hrun Hin).
Defined.

Lemma GenerateFormat_writes_only_format_witness :
  filepath.Join "/bundle" "latex.fmt" = filepath.Join "/bundle" "latex.fmt"
  /\ exists out tmpDir src,
       In (EvCall "tectonic_generate_format" out) run_format_first.2
       /\ classify out = None
       /\ In (EvMkdirTemp "tecgonic-fmt-*" (Ok tmpDir)) run_format_first.2
       /\ found_format_file (files_after out) (filepath.Join tmpDir "cache")
          = Some src
       /\ osfs.read (files_after out) src = Ok [x25].
Proof.
  assert (Hin : In (EvWriteFile (filepath.Join "/bundle" "latex.fmt") [x25])
                   run_format_first.2)
    by (apply in_writes; vm_compute; left; reflexivity).
  exact (GenerateFormat_writes_only_format _ _ _ _ _ _ _ _ _
           (run_eq run_format_first) Hin).
Defined.

Lemma GenerateFormat_no_format_file_witness :
  run_format_nothing.1.1 = Err (no_format_error "no format written")
  /\ forall p data, ~ In (EvWriteFile p data) run_format_nothing.2.
Proof.
  assert (Hin : In (EvCall "tectonic_generate_format"
                      (call_outcome run_format_nothing.2)) run_format_nothing.2)
    by (apply in_calls; vm_compute; left; reflexivity).
  assert (Htmp : In (EvMkdirTemp "tecgonic-fmt-*" (Ok "/tmp/tecgonic-fmt-0"))
                    run_format_nothing.2)
    by (apply in_mktemps; vm_compute; left; reflexivity).
  assert (Hcl : classify (call_outcome run_format_nothing.2) = None)
    by (vm_compute; reflexivity).
  assert (Hnone : found_format_file
                    (files_after (call_outcome run_format_nothing.2))
                    (filepath.Join "/tmp/tecgonic-fmt-0" "cache") = None)
    by (vm_compute; reflexivity).
  exact (GenerateFormat_no_format_file _ _ _ _ _ _ _ _ _ _ _
           (run_eq run_format_nothing) Hin Htmp Hcl Hnone).
Defined.

Lemma Compile_instantiate_failure_witness :
  calls run_cancelled.2 = [] /\ lookups run_cancelled.2 = 0%nat
  /\ closes run_cancelled.2 = 0%nat
  /\ exists e, run_cancelled.1.1 = Err e
       /\ (instantiated run_cancelled.2 <> [] ->
           e = Errorf ("tecgonic: instantiating module: "
                       +:+ Error (ErrExternal "module closed with context canceled"))
                      (Some (ErrExternal "module closed with context canceled"))).
Proof.
  exact (Compile_instantiate_failure _ _ _ _ _ _ _ _ _
           (run_eq run_cancelled) (fun _ _ => eq_refl)).
Defined.

(** ** What the bundle download does to the host *)

Section BundleEffects.

Variable http_NewRequestWithContext : Context -> string -> option error.
Variable http_Do : Context -> string -> result Response.
Variable gzip_NewReader : list byte -> result Reader.
Variable file_faults : FileFaults.

Ltac bundle_step :=
  match goal with
  | H : NewRequest _ _ _ _ = (_, _, _) |- _ => unfold NewRequest in H; triple H
  | H : DefaultClient_Do _ _ _ _ = (_, _, _) |- _ =>
      unfold DefaultClient_Do in H; triple H
  | H : gzip_open _ _ _ = (_, _, _) |- _ => unfold gzip_open in H; triple H
  | H : gzip_close _ _ = (_, _, _) |- _ => unfold gzip_close in H
  | H : writeFile _ _ _ _ = (_, _, _) |- _ => unfold writeFile in H
  | _ => run_step
  end.

Ltac bundle_inv := repeat bundle_step; cbn [fsys tmp_seq set_files] in *.

(** X13.  writeFile: when the file cannot be created, nothing else
    happens and the error of the creation is returned.  Once the file is
    created it is closed exactly once, as the last action, on every path.
    The file then holds a prefix of what the reader yielded, all of it
    unless a write failed.  The error returned is the error of the failed
    write, else the error of the reader, else the error of the close: so
    nil is returned only when the reader ended without error and the file
    holds all its bytes. *)
Theorem writeFile_spec path r s res s' tr :
  writeFile file_faults path r s = (res, s', tr) ->
  match osfs.write (fsys s) path [] with
  | Err e => res = Some e /\ s' = s /\ tr = [EvCreate path]
  | Ok _ =>
      file_closes tr = [path]
      /\ last tr = Some (EvFileClose path)
      /\ (exists d,
            d `prefix_of` r_data r
            /\ copies tr = [(path, d)]
            /\ fsys s' = <[filepath.Clean path := NFile d]> (fsys s)
            /\ (write_fault file_faults path (r_data r) = None ->
                d = r_data r))
      /\ res = match write_fault file_faults path (r_data r) with
               | Some (_, e) => Some e
               | None =>
                   match r_err r with
                   | Some e => Some e
                   | None => close_fault file_faults path
                   end
               end
      /\ (res = None ->
          r_err r = None
          /\ fsys s' = <[filepath.Clean path := NFile (r_data r)]> (fsys s))
  end.
Proof.
  intros Hrun. unfold writeFile in Hrun. bundle_inv.
  all: rewrite_hyps.
  all: repeat match goal with
       | H : osfs.write _ _ _ = Ok _ |- _ => apply write_ok in H as [? ->]
       end.
  all: rewrite ?insert_insert_eq; auto.
  all: split; [reflexivity|]; split; [reflexivity|].
  all: split; [eexists; split; [|split; [reflexivity|split; [reflexivity|]]]|].
  all: try apply prefix_take; try reflexivity; try (intros; congruence).
  all: split; [reflexivity|]; intros Hres; try discriminate Hres.
  all: split; first [assumption | reflexivity].
Qed.

Lemma creates_app t1 t2 : creates (t1 ++ t2) = creates t1 ++ creates t2.
Proof.
  induction t1 as [|ev t1 IH]; [reflexivity|].
  destruct ev; simpl; rewrite ?IH; reflexivity.
Qed.

Lemma gzip_opened_app t1 t2 :
  gzip_opened (t1 ++ t2) = gzip_opened t1 ++ gzip_opened t2.
Proof.
  induction t1 as [|ev t1 IH]; [reflexivity|].
  destruct ev; simpl; rewrite ?IH; reflexivity.
Qed.

Lemma gzip_closes_app t1 t2 :
  gzip_closes (t1 ++ t2) = (gzip_closes t1 + gzip_closes t2)%nat.
Proof.
  induction t1 as [|ev t1 IH]; [reflexivity|].
  destruct ev; simpl; rewrite ?IH; reflexivity.
Qed.

Lemma gzip_readers_app t1 t2 :
  gzip_readers gzip_NewReader (t1 ++ t2)
  = gzip_readers gzip_NewReader t1 ++ gzip_readers gzip_NewReader t2.
Proof. unfold gzip_readers. rewrite gzip_opened_app. apply List.filter_app. Qed.

Lemma http_requests_app t1 t2 :
  http_requests (t1 ++ t2) = http_requests t1 ++ http_requests t2.
Proof.
  induction t1 as [|ev t1 IH]; [reflexivity|].
  destruct ev; simpl; rewrite ?IH; reflexivity.
Qed.

(** One entry. *)
Lemma extract_entry_effects destDir cfg h p files s r s' tr :
  extract_entry gzip_NewReader file_faults destDir cfg h p files s
  = (r, s', tr) ->
  forallb is_extraction tr = true
  /\ prints tr
     = match r with
       | Ok n =>
           match progress cfg with
           | Some w =>
               if n mod 10000 =? 0
               then [(w, "  Extracted " +:+ itoa n +:+ " files" +:+ nl)]
               else []
           | None => []
           end
       | Err _ => []
       end
  /\ gzip_closes tr = length (gzip_readers gzip_NewReader tr)
  /\ (creates tr = [] \/ creates tr = [dest_path destDir h])
  /\ match r with
     | Ok n =>
         n = files + 1
         /\ r_err p = None
         /\ r_err (entry_reader gzip_NewReader (r_data p)) = None
         /\ fsys s'
            = <[filepath.Clean (dest_path destDir h) :=
                  NFile (r_data (entry_reader gzip_NewReader (r_data p)))]>
                (fsys s)
         /\ creates tr = [dest_path destDir h]
     | Err _ => True
     end.
Proof.
  intros Hrun. unfold extract_entry in Hrun. fold (dest_path destDir h) in Hrun.
  bundle_inv.
  all: destruct (r_err p) eqn:Hpe; try discriminate.
  all: try match goal with
           | H : Ok _ = Ok _ |- _ => injection H as <-
           end.
  all: repeat match goal with
       | H : osfs.write _ _ _ = Ok _ |- _ => apply write_ok in H as [? ->]
       end.
  all: unfold gzip_readers, entry_reader;
    cbn [forallb is_extraction prints gzip_closes gzip_opened creates app
         List.filter andb length];
    rewrite_hyps; cbn [length bytes_NewReader r_err r_data].
  all: split; [reflexivity|]; split; [reflexivity|]; split; [reflexivity|].
  all: split; [first [left; reflexivity | right; reflexivity]|].
  all: try exact I.
  all: split; [reflexivity|]; split; [reflexivity|].
  all: rewrite ?insert_insert_eq; auto.
Qed.

(** The loop, by induction on the archive. *)
Lemma extract_loop_effects destDir cfg es tail :
  forall files s r s' tr,
    extract_loop gzip_NewReader file_faults destDir cfg es tail files s
    = (r, s', tr) ->
    forallb is_extraction tr = true
    /\ (progress cfg = None -> prints tr = [])
    /\ (forall w, progress cfg = Some w ->
          Forall (fun wt => wt.1 = w) (prints tr))
    /\ gzip_closes tr = length (gzip_readers gzip_NewReader tr)
    /\ creates tr `prefix_of` List.map (fun hp => dest_path destDir hp.1)
                                (regular es)
    /\ match r with
       | Ok n =>
           tail = None
           /\ n = files + Z.of_nat (length (regular es))
           /\ fsys s' = extract_fs gzip_NewReader destDir es (fsys s)
           /\ creates tr
              = List.map (fun hp => dest_path destDir hp.1) (regular es)
           /\ Forall (fun hp =>
                        r_err hp.2 = None
                        /\ r_err (entry_reader gzip_NewReader (r_data hp.2))
                           = None) (regular es)
       | Err _ => True
       end.
Proof.
  induction es as [|[h p] es IH]; intros files s r s' tr Hrun;
    cbn [extract_loop] in Hrun.
  - bundle_inv.
    all: cbn [forallb is_extraction prints app gzip_closes gzip_readers
              gzip_opened List.filter length creates regular List.map
              extract_fs].
    all: repeat split; try constructor; try reflexivity; try lia.
    all: apply prefix_nil.
  - apply bind_inv in Hrun as (? & s0 & t0 & t1 & He & Hrun & ->).
    unfold emit in He. injection He as <- <- <-.
    cbv beta in Hrun. unfold regular. cbn [List.filter extract_fs].
    fold (regular es).
    change (is_regular (h, p)) with (Byte.eqb (Typeflag h) TypeReg).
    cbn [fst snd].
    destruct (Byte.eqb (Typeflag h) TypeReg); cbn [negb] in Hrun.
    + apply bind_inv in Hrun as (re & s1 & t2 & t3 & He & Hrun & ->).
      apply extract_entry_effects in He as (Hx1 & Hp1 & Hg1 & Hc1 & Hr1).
      destruct re as [files'|err].
      * destruct Hr1 as (-> & Hpe & Hge & Hfs1 & Hc1').
        apply IH in Hrun as (Hx & Hp & Hpw & Hg & Hc & Hr).
        cbn [app forallb is_extraction andb prints gzip_closes creates].
        rewrite forallb_app, prints_app, gzip_closes_app, creates_app, Hx1, Hx.
        change (gzip_readers gzip_NewReader (EvTarNext :: t2 ++ t3))
          with (gzip_readers gzip_NewReader (t2 ++ t3)).
        rewrite gzip_readers_app, length_app, Hg1, Hg, Hc1'.
        split; [reflexivity|].
        split; [intros Hn; rewrite Hp1, Hn, (Hp Hn); reflexivity|].
        split; [intros w Hw; rewrite Hp1, Hw; apply Forall_app; split;
                [destruct (_ =? _); repeat constructor|by apply Hpw]|].
        split; [reflexivity|].
        cbn [List.map app fst].
        split; [by apply prefix_cons|].
        destruct r as [n|]; [|exact I].
        destruct Hr as (Ht & -> & Hfs & Hcr & Hall).
        split; [exact Ht|]. split; [cbn [length]; lia|].
        split; [rewrite Hfs, Hfs1; reflexivity|].
        split; [by rewrite Hcr|]. constructor; [split; assumption|exact Hall].
      * unfold ret in Hrun. injection Hrun as <- <- <-.
        cbn [app forallb is_extraction andb prints gzip_closes creates].
        rewrite !app_nil_r, Hx1, Hp1.
        change (gzip_readers gzip_NewReader (EvTarNext :: t2))
          with (gzip_readers gzip_NewReader t2).
        split; [reflexivity|].
        split; [reflexivity|].
        split; [intros w _; constructor|].
        split; [exact Hg1|]. split; [|exact I].
        cbn [List.map fst].
        destruct Hc1 as [->| ->]; [apply prefix_nil|].
        apply prefix_cons, prefix_nil.
    + apply IH in Hrun as (Hx & Hp & Hpw & Hg & Hc & Hr).
      cbn [app forallb is_extraction andb prints gzip_closes creates].
      change (gzip_readers gzip_NewReader (EvTarNext :: t1))
        with (gzip_readers gzip_NewReader t1).
      do 5 (split; [assumption|]). exact Hr.
Qed.

(** The paths of PrepareBundle. *)
Lemma PrepareBundle_effects ctx destDir url force opts s r s' tr :
  PrepareBundle http_NewRequestWithContext http_Do gzip_NewReader
    file_faults ctx destDir url force opts s = (r, s', tr) ->
  (force = false
   /\ osfs.stat (fsys s) (filepath.Join destDir "SHA256SUM") = None
   /\ tr = [EvStat (filepath.Join destDir "SHA256SUM")])
  \/ ((exists e, r = Err e) /\ tr = before_request destDir force)
  \/ ((exists e, r = Err e)
      /\ tr = before_request destDir force ++ [EvNewRequest (bundle_url url)])
  \/ ((exists e, r = Err e)
      /\ (exists e, http_Do ctx (bundle_url url) = Err e)
      /\ tr = before_request destDir force
               ++ [EvNewRequest (bundle_url url); EvHttpDo (bundle_url url)])
  \/ exists resp,
       http_Do ctx (bundle_url url) = Ok resp
       /\ ((StatusCode resp <> StatusOK
            /\ (exists e, r = Err e)
            /\ tr = before_request destDir force
                     ++ [EvNewRequest (bundle_url url);
                         EvHttpDo (bundle_url url); EvBodyClose])
           \/ exists fs0 s0 rl t,
                StatusCode resp = StatusOK
                /\ extract_loop gzip_NewReader file_faults destDir
                     (PrepareBundle_config opts) (entries (Body resp))
                     (tape_err (Body resp)) 0 s0 = (rl, s', t)
                /\ osfs.mkdir_all (fsys s) destDir = Ok fs0
                /\ fsys s0 = fs0
                /\ match rl with
                   | Err e =>
                       r = Err e
                       /\ tr = before_request destDir force
                                ++ [EvNewRequest (bundle_url url);
                                    EvHttpDo (bundle_url url)]
                                ++ t ++ [EvBodyClose]
                   | Ok n =>
                       tr = before_request destDir force
                              ++ [EvNewRequest (bundle_url url);
                                  EvHttpDo (bundle_url url)]
                              ++ t
                              ++ done_line (PrepareBundle_config opts) n
                              ++ [EvReadDir destDir
                                    (osfs.read_dir (fsys s') destDir);
                                  EvBodyClose]
                       /\ (r = Ok tt ->
                           exists names,
                             osfs.read_dir (fsys s') destDir = Ok names
                             /\ (100 <= length names)%nat)
                   end).
Proof.
  intros Hrun. unfold PrepareBundle in Hrun.
  fold (bundle_url url) in Hrun. fold (PrepareBundle_config opts) in Hrun.
  remember (bundle_url url) as u eqn:Hu. clear Hu.
  remember (PrepareBundle_config opts) as cfg eqn:Hcfg. clear Hcfg.
  unfold before_request.
  bundle_inv.
  all: try solve [left; auto].
  all: try solve [right; left; split; [eexists; reflexivity|reflexivity]].
  all: try solve [right; right; left;
                  split; [eexists; reflexivity|reflexivity]].
  all: try solve [right; right; right; left;
                  split; [eexists; reflexivity|];
                  split; [eexists; reflexivity|reflexivity]].
  all: right; right; right; right; eexists; split; [reflexivity|].
  all: match goal with
       | H : negb (_ =? _) = _ |- _ =>
           first [apply negb_true_iff, Z.eqb_neq in H
                 |apply negb_false_iff, Z.eqb_eq in H]
       end.
  all: try solve [left; split; [assumption|];
                  split; [eexists; reflexivity|reflexivity]].
  all: right; eexists _, _, _, _; split; [assumption|];
    split; [eassumption|]; split; [reflexivity|]; split; [reflexivity|].
  all: cbn beta iota; unfold done_line; rewrite_hyps.
  all: cbn [app]; rewrite ?app_nil_r, <- ?app_assoc; cbn [app].
  all: try (split; reflexivity).
  all: split; [reflexivity|]; intros Hr; try discriminate Hr.
  all: eexists; split; [reflexivity|].
  all: match goal with
       | H : (_ <? 100) = false |- _ => apply Z.ltb_ge in H; lia
       end.
Qed.

Lemma body_closes_app t1 t2 :
  body_closes (t1 ++ t2) = (body_closes t1 + body_closes t2)%nat.
Proof.
  induction t1 as [|ev t1 IH]; [reflexivity|].
  destruct ev; simpl; rewrite ?IH; reflexivity.
Qed.

(** The extraction loop sends no request, closes no body and looks at no
    marker. *)
Lemma extraction_only t :
  forallb is_extraction t = true ->
  http_requests t = [] /\ body_closes t = 0%nat
  /\ (forall p, ~ In (EvStat p) t)
  /\ (forall u, ~ In (EvNewRequest u) t).
Proof.
  induction t as [|ev t IH]; [intros _; repeat split; intros ? []|].
  cbn [forallb]. intros [Hev Ht]%andb_true_iff.
  destruct (IH Ht) as (Hr & Hb & Hs & Hn).
  destruct ev; try discriminate Hev; cbn [http_requests body_closes].
  all: repeat split; try assumption.
  all: intros ? [Hin|Hin]; try discriminate Hin;
    first [eapply Hs; exact Hin | eapply Hn; exact Hin].
Qed.

Ltac bundle_project :=
  unfold before_request, done_line;
  rewrite ?http_requests_app, ?body_closes_app, ?creates_app, ?prints_app,
    ?gzip_closes_app, ?gzip_readers_app, ?length_app;
  cbn [http_requests body_closes creates prints gzip_closes gzip_readers
       gzip_opened List.filter length app].

(** X14.  When PrepareBundle went to the network and returned nil: the
    server answered 200, the archive ended without a fault, every regular
    entry could be read and decoded, the destination directory had been
    created first, the host files are those after writing each regular
    entry in archive order under its base name (so a later entry with the
    same base name replaces an earlier one), and the listing of the
    destination has at least 100 entries. *)
Theorem PrepareBundle_success ctx destDir url force opts s s' tr u :
  PrepareBundle http_NewRequestWithContext http_Do gzip_NewReader
    file_faults ctx destDir url force opts s = (Ok tt, s', tr) ->
  In (EvHttpDo u) tr ->
  exists resp fs0 names,
    http_Do ctx (bundle_url url) = Ok resp
    /\ StatusCode resp = StatusOK
    /\ tape_err (Body resp) = None
    /\ Forall (fun hp =>
                 r_err hp.2 = None
                 /\ r_err (entry_reader gzip_NewReader (r_data hp.2)) = None)
              (regular (entries (Body resp)))
    /\ osfs.mkdir_all (fsys s) destDir = Ok fs0
    /\ fsys s' = extract_fs gzip_NewReader destDir (entries (Body resp)) fs0
    /\ osfs.read_dir (fsys s') destDir = Ok names
    /\ (100 <= length names)%nat.
Proof.
  intros Hrun Hin.
  destruct (PrepareBundle_effects _ _ _ _ _ _ _ _ _ Hrun)
    as [(_ & _ & ->)|[[[e [=]] _]|[[[e [=]] _]|[[[e [=]] _]|
        (resp & Hdo & [(_ & [e [=]] & _)|
                       (fs0 & s0 & rl & t & Hst & Hloop & Hmk & Hs0 & Hr)])]]]].
  - destruct Hin as [[=]|[]].
  - apply extract_loop_effects in Hloop as (_ & _ & _ & _ & _ & Hl).
    destruct rl as [n|e]; [|destruct Hr as [[=] _]].
    destruct Hr as [_ Hr]. destruct (Hr eq_refl) as (names & Hrd & Hlen).
    destruct Hl as (Ht & _ & Hfs & _ & Hall).
    exists resp, fs0, names. rewrite Hs0 in Hfs. auto 10.
Qed.

(** X15.  With force set, PrepareBundle never looks at the marker: it
    starts by creating the destination directory, whatever the
    destination already holds. *)
Theorem PrepareBundle_force ctx destDir url opts s r s' tr :
  PrepareBundle http_NewRequestWithContext http_Do gzip_NewReader
    file_faults ctx destDir url true opts s = (r, s', tr) ->
  hd_error tr = Some (EvMkdirAll destDir)
  /\ forall p, ~ In (EvStat p) tr.
Proof.
  intros Hrun.
  destruct (PrepareBundle_effects _ _ _ _ _ _ _ _ _ Hrun)
    as [([=] & _)|[[_ ->]|[[_ ->]|[(_ & _ & ->)|
        (resp & Hdo & [(_ & _ & ->)|
                       (fs0 & s0 & rl & t & Hst & Hloop & Hmk & Hs0 & Hr)])]]]].
  1-4: split; [reflexivity|]; intros p Hin; trace_cases Hin.
  apply extract_loop_effects in Hloop as (Hx & _).
  apply extraction_only in Hx as (_ & _ & Hx & _).
  destruct rl as [n|e]; [destruct Hr as [-> _]|destruct Hr as [_ ->]].
  all: split; [reflexivity|]; intros p Hin; cbn [before_request app] in Hin.
  all: unfold done_line in Hin;
    destruct (progress (PrepareBundle_config opts)).
  all: cbn [app In] in Hin; trace_split Hin; by apply (Hx p).
Qed.

(** X16.  PrepareBundle sends at most one request, and both the request
    it builds and the one it sends go to the URL of the caller, or to
    DefaultBundleURL when the caller passed the empty string. *)
Theorem PrepareBundle_single_request ctx destDir url force opts s r s' tr :
  PrepareBundle http_NewRequestWithContext http_Do gzip_NewReader
    file_faults ctx destDir url force opts s = (r, s', tr) ->
  (http_requests tr = [] \/ http_requests tr = [bundle_url url])
  /\ forall u, In (EvNewRequest u) tr -> u = bundle_url url.
Proof.
  intros Hrun.
  destruct (PrepareBundle_effects _ _ _ _ _ _ _ _ _ Hrun)
    as [(_ & _ & ->)|[[_ ->]|[[_ ->]|[(_ & _ & ->)|
        (resp & Hdo & [(_ & _ & ->)|
                       (fs0 & s0 & rl & t & Hst & Hloop & Hmk & Hs0 & Hr)])]]]].
  1-5: destruct force; bundle_project;
    (split; [first [left; reflexivity|right; reflexivity]|]);
    intros u Hin; trace_cases Hin; congruence.
  apply extract_loop_effects in Hloop as (Hx & _).
  apply extraction_only in Hx as (Hq & _ & _ & Hx).
  destruct rl as [n|e]; [destruct Hr as [-> _]|destruct Hr as [_ ->]].
  all: destruct force, (progress (PrepareBundle_config opts)) eqn:Hp;
    bundle_project; rewrite ?Hp, Hq; cbn [app http_requests].
  all: split; [right; reflexivity|].
  all: intros u Hin; unfold before_request, done_line in Hin;
    rewrite ?Hp in Hin; cbn [app In] in Hin; trace_split Hin;
    try congruence; by destruct (Hx u).
Qed.

(** X17.  The response body is closed exactly once when the client
    returned a response, whatever happens afterwards (status other than
    200, a fault in the archive, an incomplete extraction), and then as
    the last action of the call; it is not closed when there is no
    response. *)
Theorem PrepareBundle_body_closed ctx destDir url force opts s r s' tr :
  PrepareBundle http_NewRequestWithContext http_Do gzip_NewReader
    file_faults ctx destDir url force opts s = (r, s', tr) ->
  body_closes tr
  = match http_requests tr, http_Do ctx (bundle_url url) with
    | _ :: _, Ok _ => 1%nat
    | _, _ => 0%nat
    end
  /\ (body_closes tr = 1%nat -> last tr = Some EvBodyClose).
Proof.
  intros Hrun.
  destruct (PrepareBundle_effects _ _ _ _ _ _ _ _ _ Hrun)
    as [(_ & _ & ->)|[[_ ->]|[[_ ->]|[(_ & [e He] & ->)|
        (resp & Hdo & [(_ & _ & ->)|
                       (fs0 & s0 & rl & t & Hst & Hloop & Hmk & Hs0 & Hr)])]]]].
  1-5: destruct force; bundle_project; rewrite ?He, ?Hdo;
    (split; [reflexivity|]); intros; try discriminate; reflexivity.
  apply extract_loop_effects in Hloop as (Hx & _).
  apply extraction_only in Hx as (Hq & Hb & _).
  destruct rl as [n|e]; [destruct Hr as [-> _]|destruct Hr as [_ ->]].
  all: destruct force, (progress (PrepareBundle_config opts)) eqn:Hp.
  all: split;
    [bundle_project; rewrite ?Hp, ?Hq, ?Hb, ?Hdo;
     cbn [app http_requests prints body_closes]; reflexivity
    |intros _; unfold before_request, done_line;
     rewrite ?Hp, !last_app; reflexivity].
Qed.

(** X18.  Without WithProgress, PrepareBundle prints nothing.  With
    WithProgress(w), every line about the extraction goes to [w], and
    after a successful download the last line reports the number of
    regular entries of the archive. *)
Theorem PrepareBundle_progress ctx destDir url force opts s r s' tr :
  PrepareBundle http_NewRequestWithContext http_Do gzip_NewReader
    file_faults ctx destDir url force opts s = (r, s', tr) ->
  match progress (PrepareBundle_config opts) with
  | None => prints tr = []
  | Some w =>
      Forall (fun wt => wt.1 = w) (prints tr)
      /\ forall resp,
           r = Ok tt -> http_requests tr <> [] ->
           http_Do ctx (bundle_url url) = Ok resp ->
           last (prints tr)
           = Some (w, "  Extracted "
                      +:+ itoa (Z.of_nat
                                  (length (regular (entries (Body resp)))))
                      +:+ " files (done)" +:+ nl)
  end.
Proof.
  intros Hrun.
  destruct (PrepareBundle_effects _ _ _ _ _ _ _ _ _ Hrun)
    as [(_ & _ & ->)|[[_ ->]|[[_ ->]|[(_ & [e He] & ->)|
        (resp & Hdo & [(_ & [e ->] & ->)|
                       (fs0 & s0 & rl & t & Hst & Hloop & Hmk & Hs0 & Hr)])]]]].
  1-5: destruct force, (progress (PrepareBundle_config opts));
    bundle_project; try reflexivity; (split; [constructor|]);
    intros resp' Hok Hq Hdo'; first [discriminate Hok | congruence].
  apply extract_loop_effects in Hloop as (_ & Hn & Hw & _ & _ & Hl).
  destruct (progress (PrepareBundle_config opts)) as [w|] eqn:Hp.
  - specialize (Hw w eq_refl).
    destruct rl as [n|e]; [destruct Hr as [-> _]|destruct Hr as [-> ->]].
    + destruct Hl as (_ & -> & _). split.
      * destruct force; bundle_project; rewrite Hp; cbn [app prints];
          rewrite ?app_nil_r; apply Forall_app; split; try assumption;
          repeat constructor.
      * intros resp' _ _ Hdo'. rewrite Hdo in Hdo'. injection Hdo' as <-.
        destruct force; bundle_project; rewrite Hp; cbn [app prints];
          rewrite ?app_nil_r; apply last_snoc.
    + split; [|intros resp' [=]].
      destruct force; bundle_project; rewrite ?app_nil_r; assumption.
  - specialize (Hn eq_refl).
    destruct rl as [n|e]; [destruct Hr as [-> _]|destruct Hr as [_ ->]].
    all: destruct force; bundle_project; rewrite ?Hp, Hn; reflexivity.
Qed.

(** X19.  Every gzip reader PrepareBundle opens is closed: on every
    path the number of closes is the number of payloads the decoder
    accepted. *)
Theorem PrepareBundle_gzip_closed ctx destDir url force opts s r s' tr :
  PrepareBundle http_NewRequestWithContext http_Do gzip_NewReader
    file_faults ctx destDir url force opts s = (r, s', tr) ->
  gzip_closes tr = length (gzip_readers gzip_NewReader tr).
Proof.
  intros Hrun.
  destruct (PrepareBundle_effects _ _ _ _ _ _ _ _ _ Hrun)
    as [(_ & _ & ->)|[[_ ->]|[[_ ->]|[(_ & _ & ->)|
        (resp & Hdo & [(_ & _ & ->)|
                       (fs0 & s0 & rl & t & Hst & Hloop & Hmk & Hs0 & Hr)])]]]].
  1-5: destruct force; reflexivity.
  apply extract_loop_effects in Hloop as (_ & _ & _ & Hg & _).
  destruct rl as [n|e]; [destruct Hr as [-> _]|destruct Hr as [_ ->]].
  all: destruct force, (progress (PrepareBundle_config opts)) eqn:Hp;
    bundle_project; rewrite ?Hp; cbn [app length gzip_closes gzip_readers
                                      gzip_opened List.filter];
    rewrite Hg; lia.
Qed.

(** X20.  The files PrepareBundle creates are, in archive order, the
    regular entries of the response, each directly at the destination
    directory joined with the base name of the entry, up to the entry at
    which the call stopped; other entries (directories, links) create
    nothing, and nothing is created when there is no response. *)
Theorem PrepareBundle_creates ctx destDir url force opts s r s' tr :
  PrepareBundle http_NewRequestWithContext http_Do gzip_NewReader
    file_faults ctx destDir url force opts s = (r, s', tr) ->
  creates tr `prefix_of`
    match http_Do ctx (bundle_url url) with
    | Ok resp =>
        List.map (fun hp => dest_path destDir hp.1)
                 (regular (entries (Body resp)))
    | Err _ => []
    end.
Proof.
  intros Hrun.
  destruct (PrepareBundle_effects _ _ _ _ _ _ _ _ _ Hrun)
    as [(_ & _ & ->)|[[_ ->]|[[_ ->]|[(_ & _ & ->)|
        (resp & Hdo & [(_ & _ & ->)|
                       (fs0 & s0 & rl & t & Hst & Hloop & Hmk & Hs0 & Hr)])]]]].
  1-5: destruct force; apply prefix_nil.
  apply extract_loop_effects in Hloop as (_ & _ & _ & _ & Hc & _).
  rewrite Hdo.
  destruct rl as [n|e]; [destruct Hr as [-> _]|destruct Hr as [_ ->]].
  all: destruct force, (progress (PrepareBundle_config opts)) eqn:Hp;
    bundle_project; rewrite ?Hp; cbn [app creates];
    rewrite ?app_nil_r; exact Hc.
Qed.








End BundleEffects.

Lemma run_forced_ok : run_forced.1.1 = Ok tt.
Proof. vm_compute. reflexivity. Qed.

(** ** The extraction on the small host *)


Lemma writeFile_spec_witness :
  match osfs.write (fsys demo_os) "/bundle/x" [] with
  | Err e =>
      run_write_partial.1.1 = Some e /\ run_write_partial.1.2 = demo_os
      /\ run_write_partial.2 = [EvCreate "/bundle/x"]
  | Ok _ =>
      file_closes run_write_partial.2 = ["/bundle/x"]
      /\ last run_write_partial.2 = Some (EvFileClose "/bundle/x")
      /\ (exists d,
            d `prefix_of` r_data (bytes_NewReader [x61; x62])
            /\ copies run_write_partial.2 = [("/bundle/x", d)]
            /\ fsys run_write_partial.1.2
               = <[filepath.Clean "/bundle/x" := NFile d]> (fsys demo_os)
            /\ (write_fault disk_full "/bundle/x"
                  (r_data (bytes_NewReader [x61; x62])) = None ->
                d = r_data (bytes_NewReader [x61; x62])))
      /\ run_write_partial.1.1
         = match write_fault disk_full "/bundle/x"
                   (r_data (bytes_NewReader [x61; x62])) with
           | Some (_, e) => Some e
           | None =>
               match r_err (bytes_NewReader [x61; x62]) with
               | Some e => Some e
               | None => close_fault disk_full "/bundle/x"
               end
           end
      /\ (run_write_partial.1.1 = None ->
          r_err (bytes_NewReader [x61; x62]) = None
          /\ fsys run_write_partial.1.2
             = <[filepath.Clean "/bundle/x" :=
                   NFile (r_data (bytes_NewReader [x61; x62]))]>
                 (fsys demo_os))
  end.
Proof.
  exact (writeFile_spec disk_full "/bundle/x" (bytes_NewReader [x61; x62])
           demo_os _ _ _ (run_eq run_write_partial)).
Defined.

Lemma PrepareBundle_success_witness :
  exists resp fs0 names,
    demo_http 200 ctx_background (bundle_url "") = Ok resp
    /\ StatusCode resp = StatusOK
    /\ tape_err (Body resp) = None
    /\ Forall (fun hp =>
                 r_err hp.2 = None
                 /\ r_err (entry_reader demo_gzip (r_data hp.2)) = None)
              (regular (entries (Body resp)))
    /\ osfs.mkdir_all demo_fs_full "/bundle" = Ok fs0
    /\ fsys run_forced.1.2
       = extract_fs demo_gzip "/bundle" (entries (Body resp)) fs0
    /\ osfs.read_dir (fsys run_forced.1.2) "/bundle" = Ok names
    /\ (100 <= length names)%nat.
Proof.
  assert (Hin : In (EvHttpDo DefaultBundleURL) run_forced.2)
    by (vm_compute; tauto).
  assert (Hrun : PrepareBundle demo_request (demo_http 200) demo_gzip no_faults
                   ctx_background "/bundle" "" true [WithProgress 3]
                   {| fsys := demo_fs_full; tmp_seq := 0 |}
                 = (Ok tt, run_forced.1.2, run_forced.2)).
  { rewrite <- run_forced_ok. exact (run_eq run_forced). }
  exact (PrepareBundle_success demo_request (demo_http 200) demo_gzip no_faults
           _ _ _ _ _ _ _ _ _ Hrun Hin).
Defined.

Lemma PrepareBundle_force_witness :
  hd_error run_forced.2 = Some (EvMkdirAll "/bundle")
  /\ forall p, ~ In (EvStat p) run_forced.2.
Proof.
  exact (PrepareBundle_force demo_request (demo_http 200) demo_gzip no_faults
           ctx_background "/bundle" "" [WithProgress 3]
           {| fsys := demo_fs_full; tmp_seq := 0 |} _ _ _
           (run_eq run_forced)).
Defined.

Lemma PrepareBundle_single_request_witness :
  (http_requests run_status_204.2 = []
   \/ http_requests run_status_204.2 = [bundle_url ""])
  /\ forall u, In (EvNewRequest u) run_status_204.2 -> u = bundle_url "".
Proof.
  exact (PrepareBundle_single_request demo_request (demo_http 204) demo_gzip
           no_faults ctx_background "/bundle" "" false [] demo_os _ _ _
           (run_eq run_status_204)).
Defined.

Lemma PrepareBundle_body_closed_witness :
  body_closes run_status_204.2
  = match http_requests run_status_204.2,
          demo_http 204 ctx_background (bundle_url "") with
    | _ :: _, Ok _ => 1%nat
    | _, _ => 0%nat
    end
  /\ (body_closes run_status_204.2 = 1%nat ->
      last run_status_204.2 = Some EvBodyClose).
Proof.
  exact (PrepareBundle_body_closed demo_request (demo_http 204) demo_gzip
           no_faults ctx_background "/bundle" "" false [] demo_os _ _ _
           (run_eq run_status_204)).
Defined.

Lemma PrepareBundle_progress_witness :
  match progress (PrepareBundle_config [WithProgress 3]) with
  | None => prints run_forced.2 = []
  | Some w =>
      Forall (fun wt => wt.1 = w) (prints run_forced.2)
      /\ forall resp,
           run_forced.1.1 = Ok tt -> http_requests run_forced.2 <> [] ->
           demo_http 200 ctx_background (bundle_url "") = Ok resp ->
           last (prints run_forced.2)
           = Some (w, "  Extracted "
                      +:+ itoa (Z.of_nat
                                  (length (regular (entries (Body resp)))))
                      +:+ " files (done)" +:+ nl)
  end.
Proof.
  exact (PrepareBundle_progress demo_request (demo_http 200) demo_gzip no_faults
           ctx_background "/bundle" "" true [WithProgress 3]
           {| fsys := demo_fs_full; tmp_seq := 0 |} _ _ _
           (run_eq run_forced)).
Defined.

Lemma PrepareBundle_gzip_closed_witness :
  gzip_closes run_two_files.2 = length (gzip_readers demo_gzip run_two_files.2).
Proof.
  exact (PrepareBundle_gzip_closed demo_request (demo_http 200) demo_gzip
           no_faults ctx_background "/bundle" "" false [] demo_os _ _ _
           (run_eq run_two_files)).
Defined.

Lemma PrepareBundle_creates_witness :
  creates run_two_files.2 `prefix_of`
    match demo_http 200 ctx_background (bundle_url "") with
    | Ok resp =>
        List.map (fun hp => dest_path "/bundle" hp.1)
                 (regular (entries (Body resp)))
    | Err _ => []
    end.
Proof.
  exact (PrepareBundle_creates demo_request (demo_http 200) demo_gzip no_faults
           ctx_background "/bundle" "" false [] demo_os _ _ _
           (run_eq run_two_files)).
Defined.

(** ** Options, New, the error text and the download progress *)

Lemma apply_opts_snoc {C} (opts : list (C -> C)) (o : C -> C) (cfg : C) :
  apply_opts (opts ++ [o]) cfg = o (apply_opts opts cfg).
Proof. unfold apply_opts. rewrite fold_left_app. reflexivity. Qed.

Lemma last_omap_snoc {A B} (f : A -> option B) (l : list A) (x : A) :
  last (omap f (l ++ [x]))
  = match f x with Some y => Some y | None => last (omap f l) end.
Proof.
  rewrite omap_app. cbn [omap list_omap]. destruct (f x) as [y|].
  - apply last_snoc.
  - rewrite app_nil_r. reflexivity.
Qed.

(** How the options of a call and of the compiler resolve. *)
Lemma Compile_config_resolved c (os : list compile_option) :
  bundleDir (Compile_config c (List.map to_CompileOption os))
  = default (defaultBundleDir (config c)) (last (omap sets_bundleDir os))
  /\ fontsDir (Compile_config c (List.map to_CompileOption os))
     = default (defaultFontsDir (config c)) (last (omap sets_fontsDir os))
  /\ stderr (Compile_config c (List.map to_CompileOption os))
     = last (omap sets_stderr os).
Proof.
  unfold Compile_config.
  induction os as [|o os IH] using rev_ind; [repeat split|].
  rewrite List.map_app. cbn [List.map].
  unfold apply_opts in *. rewrite fold_left_app, !last_omap_snoc.
  cbn [fold_left]. destruct IH as (Hb & Hf & Hs).
  destruct o; cbn [to_CompileOption sets_bundleDir sets_fontsDir sets_stderr
                   WithBundleDir WithFontsDir WithStderr bundleDir fontsDir
                   stderr default]; auto.
Qed.

Lemma compilerConfig_resolved (os : list compiler_option) cfg :
  defaultBundleDir (apply_opts (List.map to_CompilerOption os) cfg)
  = default (defaultBundleDir cfg) (last (omap sets_defaultBundleDir os))
  /\ defaultFontsDir (apply_opts (List.map to_CompilerOption os) cfg)
     = default (defaultFontsDir cfg) (last (omap sets_defaultFontsDir os)).
Proof.
  induction os as [|o os IH] using rev_ind; [repeat split|].
  rewrite List.map_app. cbn [List.map].
  unfold apply_opts in *. rewrite fold_left_app, !last_omap_snoc.
  cbn [fold_left]. destruct IH as (Hb & Hf).
  destruct o; cbn [to_CompilerOption sets_defaultBundleDir
                   sets_defaultFontsDir WithDefaultBundleDir
                   WithDefaultFontsDir WithCompilationCache defaultBundleDir
                   defaultFontsDir default]; auto.
Qed.

Lemma Compile_unset c ctx tex opts s :
  bundleDir (Compile_config c opts) = "" ->
  Compile c ctx tex opts s = (Err no_bundle_dir_error, s, []).
Proof.
  intros H. unfold Compile. fold (Compile_config c opts). rewrite H.
  reflexivity.
Qed.

(** X21.  The options of a call of Compile resolve field by field: for
    the bundle directory, the fonts directory and the writer of the error
    stream, the last option that sets the field wins, and a field no
    option sets keeps the default of the compiler (no writer for the error
    stream).  An empty WithBundleDir is no exception: when it is the last
    one, it overrides a default of the compiler, and Compile returns the
    configuration error without doing anything. *)
Theorem Compile_config_last_wins c (os : list compile_option) :
  bundleDir (Compile_config c (List.map to_CompileOption os))
  = default (defaultBundleDir (config c)) (last (omap sets_bundleDir os))
  /\ fontsDir (Compile_config c (List.map to_CompileOption os))
     = default (defaultFontsDir (config c)) (last (omap sets_fontsDir os))
  /\ stderr (Compile_config c (List.map to_CompileOption os))
     = last (omap sets_stderr os)
  /\ (last (omap sets_bundleDir os) = Some "" ->
      forall ctx tex s,
        Compile c ctx tex (List.map to_CompileOption os) s
        = (Err no_bundle_dir_error, s, [])).
Proof.
  destruct (Compile_config_resolved c os) as (Hb & Hf & Hs).
  do 3 (split; [assumption|]). intros Hl ctx tex s.
  apply Compile_unset. rewrite Hb, Hl. reflexivity.
Qed.

(** X22.  A compiler made by New without WithDefaultBundleDir has no
    bundle directory: every Compile on it whose options do not include
    WithBundleDir returns the configuration error and does nothing,
    whatever its context, source and other options. *)
Theorem New_no_bundle_dir wz wasm ctx os c tr :
  New wz wasm ctx (List.map to_CompilerOption os) = (Ok c, tr) ->
  omap sets_defaultBundleDir os = [] ->
  forall ctx' tex cos s,
    omap sets_bundleDir cos = [] ->
    Compile c ctx' tex (List.map to_CompileOption cos) s
    = (Err no_bundle_dir_error, s, []).
Proof.
  intros Hnew Hos ctx' tex cos s Hcos. apply Compile_unset.
  destruct (Compile_config_resolved c cos) as (-> & _). rewrite Hcos.
  cbn [last default]. unfold New in Hnew.
  destruct (wasi_Instantiate _ _ _); [discriminate|].
  destruct (CompileModule _ _ _ _); [|discriminate].
  injection Hnew as <- _. cbn [config].
  destruct (compilerConfig_resolved os
              {| defaultBundleDir := ""; defaultFontsDir := "";
                 compilationCacheDir := "" |}) as (-> & _).
  rewrite Hos. reflexivity.
Qed.

(** X24.  New creates the runtime with close-on-context-done set.  When
    it returns a compiler, the runtime has not been closed, the compiler
    holds that runtime, the module compiled on it and the options applied
    to the zero configuration.  When it fails, closing the runtime is its
    last action and the error wraps the error of the step that failed. *)
Theorem New_runtime_released wz wasm ctx opts r tr :
  New wz wasm ctx opts = (r, tr) ->
  hd_error tr = Some (EvNewRuntime true)
  /\ match r with
     | Ok c =>
         ~ In EvRuntimeClose tr
         /\ runtime c = NewRuntimeWithConfig wz ctx true
         /\ CompileModule wz (runtime c) ctx wasm = Ok (compiled c)
         /\ config c
            = apply_opts opts {| defaultBundleDir := ""; defaultFontsDir := "";
                                 compilationCacheDir := "" |}
     | Err e =>
         last tr = Some EvRuntimeClose
         /\ exists msg e0,
              e = Errorf msg (Some e0)
              /\ (wasi_Instantiate wz ctx (NewRuntimeWithConfig wz ctx true)
                  = Some e0
                  \/ CompileModule wz (NewRuntimeWithConfig wz ctx true) ctx
                       wasm = Err e0)
     end.
Proof.
  unfold New. intros Hnew.
  destruct (wasi_Instantiate _ _ _) as [e0|] eqn:Hw.
  - injection Hnew as <- <-. split; [reflexivity|]. split; [reflexivity|].
    eauto.
  - destruct (CompileModule _ _ _ _) as [cm|e0] eqn:Hc;
      injection Hnew as <- <-; (split; [reflexivity|]).
    + cbn [runtime compiled config]. split; [|auto].
      intros Hin. cbn [In] in Hin. intuition discriminate.
    + split; [reflexivity|]. eauto.
Qed.

#[local] Transparent String.append.

(** X25.  The text of a CompileError tells its kind: it starts with
    "TeX compilation error" exactly when IsTexError holds and with
    "WASM engine panic/trap" exactly when IsPanic holds; and when the
    logs are not empty it ends with the separator line followed by the
    logs. *)
Theorem CompileError_Error_kind e :
  (IsTexError e = true
   <-> String.prefix "TeX compilation error" (CompileError_Error e) = true)
  /\ (IsPanic e = true
      <-> String.prefix "WASM engine panic/trap" (CompileError_Error e) = true)
  /\ (Logs e <> "" ->
      exists head,
        CompileError_Error e
        = head +:+ nl +:+ "--- tectonic output ---" +:+ nl +:+ Logs e).
Proof.
  destruct e as [code logs werr].
  unfold IsTexError, IsPanic. cbn [ExitCode Logs CompileError_Error].
  split; [|split].
  - destruct (code =? 1) eqn:H1; [|destruct (code =? 2) eqn:H2];
      destruct werr, (decide (logs = "")); vm_compute; split; congruence.
  - destruct (code =? 1) eqn:H1; [|destruct (code =? 2) eqn:H2].
    + apply Z.eqb_eq in H1 as ->.
      destruct werr, (decide (logs = "")); vm_compute; split; congruence.
    + destruct werr, (decide (logs = "")); vm_compute; split; congruence.
    + destruct werr, (decide (logs = "")); vm_compute; split; congruence.
  - intros Hl. destruct (decide (logs = "")); [contradiction|].
    eexists. reflexivity.
Qed.

#[local] Opaque String.append.






(** ** Examples *)

Lemma Compile_config_last_wins_witness :
  Compile (demo_compiler (demo_function [0] None "" id) "/bundle")
    ctx_background []
    (List.map to_CompileOption
       [OptBundleDir "/other"; OptStderr 1; OptBundleDir ""]) demo_os
  = (Err no_bundle_dir_error, demo_os, []).
Proof.
  exact (proj2 (proj2 (proj2
           (Compile_config_last_wins
              (demo_compiler (demo_function [0] None "" id) "/bundle")
              [OptBundleDir "/other"; OptStderr 1; OptBundleDir ""])))
           eq_refl ctx_background [] demo_os).
Defined.

Lemma New_no_bundle_dir_witness :
  Compile
    {| runtime := demo_runtime (demo_function [0] None "" id);
       compiled := 0%nat;
       config := {| defaultBundleDir := ""; defaultFontsDir := "/fonts";
                    compilationCacheDir := "/cache" |} |}
    ctx_background [x41] (List.map to_CompileOption [OptStderr 1]) demo_os
  = (Err no_bundle_dir_error, demo_os, []).
Proof.
  exact (New_no_bundle_dir (demo_wazero None (Ok 0%nat)) [] ctx_background
           [OptDefaultFontsDir "/fonts"; OptCompilationCache "/cache"]
           _ _ eq_refl eq_refl ctx_background [x41] [OptStderr 1] demo_os
           eq_refl).
Defined.

Lemma New_runtime_released_witness :
  hd_error new_failed.2 = Some (EvNewRuntime true)
  /\ match new_failed.1 with
     | Ok c =>
         ~ In EvRuntimeClose new_failed.2
         /\ runtime c = NewRuntimeWithConfig wasi_fails ctx_background true
         /\ CompileModule wasi_fails (runtime c) ctx_background []
            = Ok (compiled c)
         /\ config c
            = apply_opts [] {| defaultBundleDir := ""; defaultFontsDir := "";
                               compilationCacheDir := "" |}
     | Err e =>
         last new_failed.2 = Some EvRuntimeClose
         /\ exists msg e0,
              e = Errorf msg (Some e0)
              /\ (wasi_Instantiate wasi_fails ctx_background
                    (NewRuntimeWithConfig wasi_fails ctx_background true)
                  = Some e0
                  \/ CompileModule wasi_fails
                       (NewRuntimeWithConfig wasi_fails ctx_background true)
                       ctx_background [] = Err e0)
     end.
Proof.
  exact (New_runtime_released wasi_fails [] ctx_background [] _ _
           (surjective_pairing new_failed)).
Defined.

